(** * Payroll Analytics API: the request handlers of [server.py]

    A shallow embedding of [src/app/backend/server.py] together with the
    table declared in [models.py] and the request-scoped session of
    [database.py].

    Modelling conventions.
    - A Python [float] is a binary64 number, given by its value: NaN, an
      infinity, or the rational it denotes (the two zeros are one value).
      An arithmetic operation of Python is the exact operation followed
      by rounding to the nearest binary64, ties to even ([nearest_double]).
    - A table cell, as the loop receives it, is a Python [int], a
      [numpy.int64], a [float], a [str] or [None]; the driver stores a
      [numpy.int64] bound to a String column as the BLOB of its bytes.
    - An exception is a value of [exn]; a computation that may raise has
      type [result A]; a handler threads the session through [M].  The
      result of a request is the value its handler returns or the
      exception it raises; how the framework renders a returned value as
      JSON is not part of the model.
    - The behaviour of the libraries that is not fixed by a standard (the
      UTF-8 codec, pandas' readers, [float] on a string, [str.strip],
      [uuid.uuid4], SQLite's [SUM] over reals and its rendering of a real
      stored under TEXT affinity, pydantic's reading of bytes as a [str])
      is the interface [Runtime]; every theorem holds for every
      implementation of it, and [ref_runtime] is an executable one. *)

From Stdlib Require Import List String Ascii Bool Arith ZArith QArith Qround Qabs Lia.
From Stdlib Require Import Strings.Byte Lqa.
From Stdlib Require Import DecimalString Permutation.
Import ListNotations.

Set Implicit Arguments.
Open Scope string_scope.
Open Scope list_scope.

(* ================================================================= *)
(** ** Python values, exceptions and builtins                         *)
(* ================================================================= *)

Module Py.

(** A Python [float]: a binary64 number, by its value. *)
Inductive pyfloat :=
| FNaN
| FInf (negative : bool)
| FFin (q : Q).

(** A Python number as [get_kpis] computes with them. *)
Inductive pynum :=
| NInt (z : Z)
| NFloat (f : pyfloat).

(** The objects a table cell, a column label, a [Series.get] result or a
    keyword argument of [Employee(...)] can be.  [PyInt64] is a
    [numpy.int64]; a [numpy.float64] is a [float].  [PySeries] is the
    [Series] that [row.get] returns when the label occurs more than
    once. *)
Inductive pyval :=
| PyNone
| PyInt (z : Z)
| PyInt64 (z : Z)
| PyFloat (f : pyfloat)
| PyStr (s : string)
| PySeries.

(** Exceptions.  All of them derive from [Exception]. *)
Inductive exn :=
| HTTPException (status_code : Z) (detail : string)
| LibraryError (msg : string)     (* raised by the codec or by pandas *)
| ValueError
| TypeError
| OverflowError
| AttributeError
| ValidationError                 (* pydantic *)
| IntegrityError                  (* a PRIMARY KEY or UNIQUE constraint *)
| InterfaceError.                 (* a parameter the driver cannot bind *)

Inductive result (A : Type) :=
| Ok (a : A)
| Raise (e : exn).
Arguments Ok {A} a.
Arguments Raise {A} e.

Definition rbind {A B} (r : result A) (k : A -> result B) : result B :=
  match r with
  | Ok a => k a
  | Raise e => Raise e
  end.

(** Decimal text of an integer, as [str(int)] prints it. *)
Definition str_int (z : Z) : string :=
  NilZero.string_of_int (Z.to_int z).

(** [str(e)].  Starlette's [HTTPException.__str__] is
    [f"{status_code}: {detail}"]. *)
Definition str_exn (e : exn) : string :=
  match e with
  | HTTPException c d => (str_int c ++ ": " ++ d)%string
  | LibraryError m => m
  | ValueError => "ValueError"
  | TypeError => "TypeError"
  | OverflowError => "OverflowError"
  | AttributeError => "AttributeError"
  | ValidationError => "ValidationError"
  | IntegrityError => "IntegrityError"
  | InterfaceError => "InterfaceError"
  end.

(** The status of the response the framework sends when a handler raises:
    an [HTTPException] carries its own, anything else is a 500. *)
Definition status_of_exn (e : exn) : Z :=
  match e with
  | HTTPException c _ => c
  | _ => 500
  end.

Definition status_of {A} (r : result A) : Z :=
  match r with
  | Ok _ => 200
  | Raise e => status_of_exn e
  end.

(** [s.endswith(suffix)]. *)
Definition endswith (s suffix : string) : bool :=
  let n := String.length s in
  let m := String.length suffix in
  (m <=? n)%nat && String.eqb (substring (n - m) m s) suffix.

(** Rounding to the nearest integer, ties to the even one. *)
Definition round_half_even (x : Q) : Z :=
  let f := Qfloor x in
  match (x - inject_Z f ?= 1 # 2)%Q with
  | Lt => f
  | Gt => (f + 1)%Z
  | Eq => if Z.even f then f else (f + 1)%Z
  end.

Definition pow2 (e : Z) : Q :=
  if (0 <=? e)%Z then inject_Z (2 ^ e) else (1 / inject_Z (2 ^ (- e)))%Q.

(** The binary64 number nearest to [x], ties to the even significand:
    53 bits of significand, exponents from -1074, an infinity from
    2^1024 on. *)
Definition nearest_double (x : Q) : pyfloat :=
  let q := Qred x in
  if Qeq_bool q 0 then FFin 0
  else
    let a := Qabs q in
    let e0 := (Z.log2 (Qnum a) - Z.log2 (Z.pos (Qden a)) - 52)%Z in
    let e1 := if Qle_bool (pow2 53) (a / pow2 e0) then (e0 + 1)%Z
              else if Qle_bool (pow2 52) (a / pow2 e0) then e0
                   else (e0 - 1)%Z in
    let e := Z.max e1 (-1074) in
    let v := Qred (inject_Z (round_half_even (a / pow2 e)) * pow2 e) in
    if Qle_bool (pow2 1024) v then FInf (Qnum q <? 0)%Z
    else FFin (if (Qnum q <? 0)%Z then Qred (- v) else v).

(** The float nearest to an integer, as the conversion of a count or of
    a [numpy.int64] gives it.  ([float] on a Python [int] raises from
    2^1024 on instead: see [py_float].) *)
Definition float_of_int (z : Z) : pyfloat := nearest_double (inject_Z z).

(** [a / b] on floats, for a divisor that is not zero. *)
Definition float_div (a b : pyfloat) : pyfloat :=
  match a, b with
  | FNaN, _ | _, FNaN => FNaN
  | FInf _, FInf _ => FNaN
  | FInf s, FFin q => FInf (xorb s (Qnum q <? 0)%Z)
  | FFin _, FInf _ => FFin 0
  | FFin p, FFin q => nearest_double (p / q)
  end.

(** [round(f, ndigits)] on a float, for [ndigits >= 0]: the decimal with
    [ndigits] places nearest to the value, ties to even, then the float
    nearest to that decimal; NaN and the infinities are returned as they
    are. *)
Definition round_float (f : pyfloat) (ndigits : nat) : pyfloat :=
  match f with
  | FFin q =>
      let scale := inject_Z (10 ^ Z.of_nat ndigits) in
      nearest_double (inject_Z (round_half_even (q * scale)) / scale)
  | _ => f
  end.

(** [n or 0] on the value [scalar()] returns for [COUNT]. *)
Definition or_zero_int (v : option Z) : Z :=
  match v with
  | None => 0
  | Some n => if (n =? 0)%Z then 0 else n
  end.

(** [x or 0] on the value [scalar()] returns for [SUM]: [None] and a
    zero are falsy and give the integer 0. *)
Definition or_zero (v : option pyfloat) : pynum :=
  match v with
  | None => NInt 0
  | Some (FFin q) => if Qeq_bool q 0 then NInt 0 else NFloat (FFin q)
  | Some f => NFloat f
  end.

(** [x / n] for an integer [n] that is not zero: the quotient of two
    integers is correctly rounded, a float is divided by the float
    nearest to [n] ([n] is a count of SQLite, below 2^63, so that this
    conversion does not overflow). *)
Definition truediv (x : pynum) (n : Z) : pynum :=
  match x with
  | NInt z => NFloat (nearest_double (inject_Z z / inject_Z n))
  | NFloat f => NFloat (float_div f (float_of_int n))
  end.

(** [round(x, ndigits)], for [ndigits >= 0]: an integer is returned as it
    is. *)
Definition round (x : pynum) (ndigits : nat) : pynum :=
  match x with
  | NInt z => NInt z
  | NFloat f => NFloat (round_float f ndigits)
  end.

(** What a pydantic [float] field keeps of a number. *)
Definition to_float (x : pynum) : pyfloat :=
  match x with
  | NInt z => float_of_int z
  | NFloat f => f
  end.

End Py.
Export Py.

Notation "x <~ r ;; k" := (rbind r (fun x => k))
  (at level 61, r at next level, right associativity).

(* ================================================================= *)
(** ** pandas: the parsed table and its rows                          *)
(* ================================================================= *)

Module Pandas.

(** The dtype of a column. *)
Inductive dtype :=
| Int64
| UInt64
| Float64
| Object.

(** A [DataFrame]: the column labels, the dtype of each column and, per
    data row, one cell per column.  A label is a [str] or, from a
    workbook whose header cells are numbers, an [int] or a [float].  A
    cell of an integer column is [PyInt z], a cell of a float64 column is
    [PyFloat f], a cell of an object column is any object.  Columns of
    booleans and of dates are not represented. *)
Record DataFrame := {
  columns : list pyval;
  dtypes : list dtype;
  data : list (list pyval)
}.

(** [len(df)]: the number of data rows. *)
Definition len (df : DataFrame) : nat := List.length (data df).

(** [df.columns = labels]. *)
Definition set_columns (df : DataFrame) (labels : list pyval) : DataFrame :=
  {| columns := labels; dtypes := dtypes df; data := data df |}.

Definition is_text (l : pyval) : bool :=
  match l with
  | PyStr _ => true
  | _ => false
  end.

(** [index.str.strip()]: the accessor is refused on an index none of
    whose labels is a string; otherwise each string is stripped and every
    other label becomes NaN. *)
Definition str_strip_index (strip : string -> string) (labels : list pyval)
  : result (list pyval) :=
  match labels with
  | [] => Ok []
  | _ :: _ =>
      if existsb is_text labels
      then Ok (map (fun l => match l with
                             | PyStr s => PyStr (strip s)
                             | _ => PyFloat FNaN
                             end) labels)
      else Raise AttributeError
  end.

Definition dtype_eqb (a b : dtype) : bool :=
  match a, b with
  | Int64, Int64 | UInt64, UInt64 | Float64, Float64 | Object, Object => true
  | _, _ => false
  end.

Definition is_numeric (d : dtype) : bool :=
  match d with
  | Object => false
  | _ => true
  end.

(** The dtype of a row that holds one cell of each column: the dtype of
    the columns when they agree, float64 when they are all numbers,
    object otherwise. *)
Definition common_dtype (ds : list dtype) : dtype :=
  match ds with
  | [] => Object
  | d :: ds' =>
      if forallb (dtype_eqb d) ds' then d
      else if forallb is_numeric ds then Float64
           else Object
  end.

(** A cell as a row of dtype [d] holds it: in an integer row a
    [numpy.int64], in a float64 row the nearest float, in an object row
    the Python object. *)
Definition upcast (d : dtype) (v : pyval) : pyval :=
  match d, v with
  | Int64, PyInt z | UInt64, PyInt z => PyInt64 z
  | Float64, PyInt z => PyFloat (float_of_int z)
  | _, _ => v
  end.

(** A row as [iterrows] yields it: a [Series] indexed by the labels. *)
Record Series := {
  index : list pyval;
  values : list pyval
}.

Definition iterrows (df : DataFrame) : list Series :=
  map (fun vs => {| index := columns df;
                    values := map (upcast (common_dtype (dtypes df))) vs |})
      (data df).

(** Whether the label is the string [key]. *)
Definition labelled (key : string) (l : pyval) : bool :=
  match l with
  | PyStr s => String.eqb s key
  | _ => false
  end.

(** The cells of [row] whose label is [key]. *)
Definition hits (row : Series) (key : string) : list pyval :=
  map snd
    (filter (fun p => labelled key (fst p))
            (combine (index row) (values row))).

(** [row.get(key, default)]: the default when the label is absent, the
    cell when it occurs once, a sub-[Series] when it is repeated. *)
Definition get (row : Series) (key : string) (default : pyval) : pyval :=
  match hits row key with
  | [] => default
  | [v] => v
  | _ :: _ :: _ => PySeries
  end.

End Pandas.
Export Pandas.

(* ================================================================= *)
(** ** models.py: the [employees] table                               *)
(* ================================================================= *)

Module Models.

(** What a String column holds when it is not NULL: text, or the bytes
    of a BLOB. *)
Inductive sqltext :=
| SText (s : string)
| SBlob (bytes : string).

(** A row of [employees].  [id] is the primary key (NOT NULL), always
    written as text; every other column is nullable; [employee_id] is
    UNIQUE.  A Float column holds a real that is not NaN. *)
Record Employee := {
  id : string;
  employee_id : option sqltext;
  name : option sqltext;
  age : option Z;
  gender : option sqltext;
  department : option sqltext;
  job_role : option sqltext;
  monthly_income : option pyfloat;
  years_at_company : option Z;
  overtime : option bool;
  attrition : option bool;
  performance_rating : option Z
}.

(** The transient object [Employee(id=..., employee_id=..., name=...,
    department=..., monthly_income=...)] builds: its attributes are the
    Python values it was given, until the flush binds them. *)
Record NewEmployee := {
  new_id : string;
  new_employee_id : pyval;
  new_name : pyval;
  new_department : pyval;
  new_monthly_income : pyfloat
}.

End Models.
Export Models.

(* ================================================================= *)
(** ** The libraries the handlers call                                *)
(* ================================================================= *)

Class Runtime := {
  (** [contents.decode("utf-8")] *)
  decode_utf8 : list byte -> result string;
  (** [pd.read_csv(io.StringIO(text))] *)
  read_csv : string -> result DataFrame;
  (** [pd.read_excel(io.BytesIO(contents))] *)
  read_excel : list byte -> result DataFrame;
  (** [label.strip()] *)
  str_strip : string -> string;
  (** [float(s)] on a string; [None] is [ValueError] *)
  float_of_str : string -> option pyfloat;
  (** [str(uuid.uuid4())], the n-th draw of the process *)
  uuid4 : nat -> string;
  (** what SQLite keeps when a real is stored in a String column *)
  text_of_real : pyfloat -> string;
  (** SQLite's [SUM] over the reals of a column, none of them NULL *)
  sum_reals : list pyfloat -> pyfloat;
  (** the string pydantic makes of bytes given to a [str] field; [None]
      is a validation error *)
  str_of_bytes : string -> option string
}.

(* ================================================================= *)
(** ** database.py: the session and its commit                        *)
(* ================================================================= *)

Module Database.

(** The eight bytes of a [numpy.int64], least significant first. *)
Definition int64_bytes (z : Z) : string :=
  string_of_list_ascii
    (map (fun i => ascii_of_N (Z.to_N ((z / 256 ^ Z.of_nat i) mod 256)))
         (seq 0 8)).

(** Whether SQLite can hold the Python [int] as an INTEGER. *)
Definition fits_int64 (z : Z) : bool :=
  ((- 2 ^ 63 <=? z) && (z <? 2 ^ 63))%Z.

Section WithRuntime.
Context {R : Runtime}.

(** Binding a value to a String column, and what the column then holds:
    under TEXT affinity an integer and a real are turned into text, a
    NaN is NULL, the buffer of a [numpy.int64] stays a BLOB; an [int]
    beyond 64 bits and a [Series] cannot be bound. *)
Definition bind_text (v : pyval) : result (option sqltext) :=
  match v with
  | PyNone => Ok None
  | PyInt z =>
      if fits_int64 z then Ok (Some (SText (str_int z)))
      else Raise OverflowError
  | PyInt64 z => Ok (Some (SBlob (int64_bytes z)))
  | PyFloat FNaN => Ok None
  | PyFloat f => Ok (Some (SText (text_of_real f)))
  | PyStr s => Ok (Some (SText s))
  | PySeries => Raise InterfaceError
  end.

(** Binding a float to a Float column. *)
Definition bind_real (f : pyfloat) : option pyfloat :=
  match f with
  | FNaN => None
  | _ => Some f
  end.

(** The row an INSERT of [e] writes: the columns the constructor did not
    receive take their defaults. *)
Definition insert_row (e : NewEmployee) : result Employee :=
  eid <~ bind_text (new_employee_id e) ;;
  nm <~ bind_text (new_name e) ;;
  dept <~ bind_text (new_department e) ;;
  Ok {| id := new_id e;
        employee_id := eid;
        name := nm;
        age := None;
        gender := None;
        department := dept;
        job_role := None;
        monthly_income := bind_real (new_monthly_income e);
        years_at_company := None;
        overtime := Some false;
        attrition := Some false;
        performance_rating := None |}.

End WithRuntime.

(** The primary keys and the non-null business identifiers of a table. *)
Definition ids (t : list Employee) : list string := map id t.

Fixpoint somes {A} (l : list (option A)) : list A :=
  match l with
  | [] => []
  | Some a :: l' => a :: somes l'
  | None :: l' => somes l'
  end.

Definition keys (t : list Employee) : list sqltext :=
  somes (map employee_id t).

(** Equality as SQLite tests it for a constraint: text equals text, a
    BLOB equals a BLOB of the same bytes. *)
Class Same (A : Type) := same : A -> A -> bool.

#[export] Instance same_string : Same string := String.eqb.

Definition sqltext_eqb (a b : sqltext) : bool :=
  match a, b with
  | SText x, SText y => String.eqb x y
  | SBlob x, SBlob y => String.eqb x y
  | _, _ => false
  end.

#[export] Instance same_sqltext : Same sqltext := sqltext_eqb.

Definition mem {A} `{Same A} (x : A) (l : list A) : bool :=
  existsb (same x) l.

(** Whether inserting [r] into [t] breaks PRIMARY KEY ([id]) or UNIQUE
    ([employee_id]; NULLs never collide). *)
Definition violates (t : list Employee) (r : Employee) : bool :=
  mem (id r) (ids t) ||
  match employee_id r with
  | Some k => mem k (keys t)
  | None => false
  end.

Section WithRuntime.
Context {R : Runtime}.

(** The flush of a commit: the pending objects are inserted in the order
    they were added, inside one transaction. *)
Fixpoint flush (t : list Employee) (pending : list NewEmployee)
  : result (list Employee) :=
  match pending with
  | [] => Ok t
  | e :: rest =>
      r <~ insert_row e ;;
      if violates t r then Raise IntegrityError
      else flush (t ++ [r]) rest
  end.

End WithRuntime.

(** What a handler sees through [db]: the table, the objects added and not
    yet flushed, and how many UUIDs the process has drawn. *)
Record Session := {
  table : list Employee;
  pending : list NewEmployee;
  entropy : nat
}.

(** A handler body: it may raise, and it changes the session. *)
Definition M (A : Type) : Type := Session -> result A * Session.

Definition ret {A} (a : A) : M A := fun s => (Ok a, s).

Definition bind {A B} (m : M A) (k : A -> M B) : M B :=
  fun s =>
    match m s with
    | (Ok a, s') => k a s'
    | (Raise e, s') => (Raise e, s')
    end.

Definition lift {A} (r : result A) : M A := fun s => (r, s).

(** [for x in xs: body(x)] *)
Fixpoint for_each {A} (xs : list A) (body : A -> M unit) : M unit :=
  match xs with
  | [] => ret tt
  | x :: xs' => bind (body x) (fun _ => for_each xs' body)
  end.

(** [db.add(e)] *)
Definition add (e : NewEmployee) : M unit :=
  fun s => (Ok tt, {| table := table s;
                      pending := pending s ++ [e];
                      entropy := entropy s |}).

(** [select(func.count(Employee.id))]: the rows whose [id] is not NULL,
    that is all of them. *)
Definition count_id (t : list Employee) : option Z :=
  Some (Z.of_nat (List.length t)).

(** The monthly incomes that are not NULL, in the order of the scan. *)
Definition incomes (t : list Employee) : list pyfloat :=
  somes (map monthly_income t).

Section WithRuntime.
Context {R : Runtime}.

(** [select(func.sum(Employee.monthly_income))]: NULL when no income is
    not NULL, otherwise SQLite's sum of them, a NaN being returned as
    NULL. *)
Definition sum_monthly_income (t : list Employee) : option pyfloat :=
  match incomes t with
  | [] => None
  | _ :: _ => bind_real (sum_reals (incomes t))
  end.

End WithRuntime.

(** [(await db.execute(query)).scalar()] *)
Definition scalar {A} (query : list Employee -> A) : M A :=
  fun s => (Ok (query (table s)), s).

(** [result.scalars().all()] of [select(Employee)] *)
Definition select_all : M (list Employee) :=
  fun s => (Ok (table s), s).

Section WithRuntime.
Context {R : Runtime}.

(** [await db.commit()]: the flush either writes every pending row or the
    transaction is rolled back and the error propagates. *)
Definition commit : M unit :=
  fun s =>
    match flush (table s) (pending s) with
    | Ok t' => (Ok tt, {| table := t'; pending := []; entropy := entropy s |})
    | Raise e =>
        (Raise e, {| table := table s; pending := []; entropy := entropy s |})
    end.

(** [str(uuid.uuid4())] *)
Definition fresh_uuid : M string :=
  fun s => (Ok (uuid4 (entropy s)),
            {| table := table s;
               pending := pending s;
               entropy := S (entropy s) |}).

End WithRuntime.

(** The persisted state between requests. *)
Record App := {
  store : list Employee;
  draws : nat
}.

(** [get_db]: a session is opened for the request and closed when the
    handler is done, on every exit path; what was added and not committed
    is dropped. *)
Definition get_db {A} (handler : M A) (app : App) : result A * App :=
  let (r, s) :=
    handler {| table := store app; pending := []; entropy := draws app |} in
  (r, {| store := table s; draws := entropy s |}).

End Database.
Export Database.

Notation "x <- m ;; k" := (bind m (fun x => k))
  (at level 61, m at next level, right associativity).

(* ================================================================= *)
(** ** server.py: response models and handlers                        *)
(* ================================================================= *)

Module EmployeeResponse.
Record t := {
  id : string;
  employee_id : string;
  name : string;
  department : string;
  monthly_income : pyfloat
}.
End EmployeeResponse.

Module KPIResponse.
Record t := {
  total_employees : Z;
  total_payroll_cost : pyfloat;
  avg_salary : pyfloat
}.
End KPIResponse.

Module Server.

Section WithRuntime.
Context {R : Runtime}.

(** pydantic: a [str] field accepts no [None]; it accepts a string, and
    bytes when it can read them as one. *)
Definition validate_str (v : option sqltext) : result string :=
  match v with
  | Some (SText s) => Ok s
  | Some (SBlob b) =>
      match str_of_bytes b with
      | Some s => Ok s
      | None => Raise ValidationError
      end
  | None => Raise ValidationError
  end.

(** pydantic: a [float] field accepts no [None]. *)
Definition validate_float (v : option pyfloat) : result pyfloat :=
  match v with
  | Some f => Ok f
  | None => Raise ValidationError
  end.

(** [EmployeeResponse(id=, employee_id=, name=, department=,
    monthly_income=)] *)
Definition new_EmployeeResponse
    (id employee_id name department : option sqltext)
    (monthly_income : option pyfloat) : result EmployeeResponse.t :=
  i <~ validate_str id ;;
  e <~ validate_str employee_id ;;
  n <~ validate_str name ;;
  d <~ validate_str department ;;
  m <~ validate_float monthly_income ;;
  Ok {| EmployeeResponse.id := i;
        EmployeeResponse.employee_id := e;
        EmployeeResponse.name := n;
        EmployeeResponse.department := d;
        EmployeeResponse.monthly_income := m |}.

End WithRuntime.

(** [[f(e) for e in xs]] where [f] may raise. *)
Fixpoint comprehension {A B} (f : A -> result B) (xs : list A)
  : result (list B) :=
  match xs with
  | [] => Ok []
  | x :: xs' =>
      y <~ f x ;;
      ys <~ comprehension f xs' ;;
      Ok (y :: ys)
  end.

(** The multipart file of the request. *)
Record UploadFile := {
  filename : string;
  contents : list byte
}.

(** The JSON object [upload_dataset] returns. *)
Record UploadResult := {
  status : string;
  rows_inserted : nat
}.

Section WithRuntime.
Context {R : Runtime}.

(** The body of [GET /api/kpis]. *)
Definition get_kpis : M KPIResponse.t :=
  n <- scalar count_id ;;
  let total_employees := or_zero_int n in
  p <- scalar sum_monthly_income ;;
  let total_payroll_cost := or_zero p in
  let avg_salary :=
    if (total_employees =? 0)%Z then NInt 0
    else truediv total_payroll_cost total_employees in
  ret {| KPIResponse.total_employees := total_employees;
         KPIResponse.total_payroll_cost :=
           to_float (round total_payroll_cost 2);
         KPIResponse.avg_salary := to_float (round avg_salary 2) |}.

(** The body of [GET /api/employees]. *)
Definition get_employees : M (list EmployeeResponse.t) :=
  employees <- select_all ;;
  lift (comprehension
          (fun e => new_EmployeeResponse
                      (Some (SText (id e))) (employee_id e) (name e)
                      (department e) (monthly_income e))
          employees).

(** [float(v)] *)
Definition py_float (v : pyval) : result pyfloat :=
  match v with
  | PyNone => Raise TypeError
  | PyInt z =>
      match float_of_int z with
      | FInf _ => Raise OverflowError
      | f => Ok f
      end
  | PyInt64 z => Ok (float_of_int z)
  | PyFloat f => Ok f
  | PyStr s =>
      match float_of_str s with
      | Some f => Ok f
      | None => Raise ValueError
      end
  | PySeries => Raise TypeError
  end.

(** The body of the [try]. *)
Definition read_frame (file : UploadFile) : result DataFrame :=
  if endswith (filename file) ".csv" then
    text <~ decode_utf8 (contents file) ;;
    read_csv text
  else if endswith (filename file) ".xlsx" then
    read_excel (contents file)
  else Raise (HTTPException 400 "Upload CSV or XLSX only").

(** The [try] with its [except Exception as e]. *)
Definition load_frame (file : UploadFile) : result DataFrame :=
  match read_frame file with
  | Ok df => Ok df
  | Raise e => Raise (HTTPException 400 ("File error: " ++ str_exn e)%string)
  end.

(** One turn of the loop over [df.iterrows()]. *)
Definition ingest_row (row : Series) : M unit :=
  uid <- fresh_uuid ;;
  income <- lift (py_float (get row "MonthlyIncome" (PyInt 0))) ;;
  add {| new_id := uid;
         new_employee_id := get row "EmployeeID" PyNone;
         new_name := get row "Name" PyNone;
         new_department := get row "Department" PyNone;
         new_monthly_income := income |}.

(** The body of [POST /api/etl/upload]. *)
Definition upload_dataset (file : UploadFile) : M UploadResult :=
  df0 <- lift (load_frame file) ;;
  labels <- lift (str_strip_index str_strip (columns df0)) ;;
  let df := set_columns df0 labels in
  _ <- for_each (iterrows df) ingest_row ;;
  _ <- commit ;;
  ret {| status := "success"; rows_inserted := len df |}.

(** The three endpoints, each run in its own session. *)
Definition GET_kpis (app : App) : result KPIResponse.t * App :=
  get_db get_kpis app.

Definition GET_employees (app : App)
  : result (list EmployeeResponse.t) * App :=
  get_db get_employees app.

Definition POST_upload (file : UploadFile) (app : App)
  : result UploadResult * App :=
  get_db (upload_dataset file) app.

End WithRuntime.

End Server.
Export Server.

(* ================================================================= *)
(** ** An executable runtime                                          *)
(* ================================================================= *)

(** A reference implementation of [Runtime], used to run the handlers on
    concrete requests.  It covers the plain subset of each library call:
    strict UTF-8; comma-separated text without quoting, in which no row
    is longer than the heading and no column holds booleans or dates;
    [float] on ASCII text; ASCII whitespace; a sum that adds in the order
    of the scan; bytes read as a string when they are UTF-8.
    Spreadsheets are not read: [read_excel] rejects its input the way
    pandas rejects bytes that are not a workbook.  The UUIDs are a
    counter. *)
Module Ref.

Definition is_space (c : ascii) : bool :=
  let n := nat_of_ascii c in
  ((9 <=? n) && (n <=? 13) || (28 <=? n) && (n <=? 32))%nat.

Fixpoint lstrip (s : list ascii) : list ascii :=
  match s with
  | c :: s' => if is_space c then lstrip s' else s
  | [] => []
  end.

Definition strip_chars (s : list ascii) : list ascii :=
  rev (lstrip (rev (lstrip s))).

Definition strip (s : string) : string :=
  string_of_list_ascii (strip_chars (list_ascii_of_string s)).

(** Splitting on a separator character. *)
Fixpoint split_on (sep : ascii) (s : list ascii) : list (list ascii) :=
  match s with
  | [] => [[]]
  | c :: s' =>
      if Ascii.eqb c sep then [] :: split_on sep s'
      else match split_on sep s' with
           | [] => [[c]]
           | w :: ws => (c :: w) :: ws
           end
  end.

Definition digit (c : ascii) : option Z :=
  let n := nat_of_ascii c in
  if ((48 <=? n) && (n <=? 57))%nat then Some (Z.of_nat (n - 48)) else None.

(** The longest prefix of digits: its value, its length, the rest.  When
    [grouped], one underscore is allowed between two digits. *)
Fixpoint digits (grouped : bool) (acc : Z) (len : nat) (s : list ascii)
  : Z * nat * list ascii :=
  match s with
  | c :: s' =>
      match digit c with
      | Some d => digits grouped (10 * acc + d) (S len) s'
      | None =>
          match s' with
          | c' :: _ =>
              if grouped && Ascii.eqb c "_" && negb (Nat.eqb len 0)
                 && match digit c' with Some _ => true | None => false end
              then digits grouped acc len s'
              else (acc, len, s)
          | [] => (acc, len, s)
          end
      end
  | [] => (acc, len, [])
  end.

Definition sign (s : list ascii) : bool * list ascii :=
  match s with
  | "-"%char :: s' => (true, s')
  | "+"%char :: s' => (false, s')
  | _ => (false, s)
  end.

Definition pow10 (e : Z) : Q :=
  if (0 <=? e)%Z then inject_Z (10 ^ e)
  else (1 / inject_Z (10 ^ (- e)))%Q.

(** The exponent part of a literal, when there is one. *)
Definition exponent (grouped : bool) (s : list ascii) : option Z :=
  match s with
  | [] => Some 0%Z
  | c :: s' =>
      if (Ascii.eqb c "e" || Ascii.eqb c "E")%bool then
        let '(neg, s1) := sign s' in
        match digits grouped 0 0 s1 with
        | (_, O, _) => None
        | (e, _, []) => Some (if neg then (- e)%Z else e)
        | _ => None
        end
      else None
  end.

(** A decimal literal: sign, digits with an optional fraction, optional
    exponent; its exact value.  The boolean tells whether it is an
    integer literal. *)
Definition number (grouped : bool) (s : list ascii) : option (bool * Q) :=
  let '(neg, s0) := sign s in
  let '(ip, ilen, s1) := digits grouped 0 0 s0 in
  let '(fp, flen, s2, dotted) :=
    match s1 with
    | "."%char :: s1' =>
        let '(f, n, r) := digits grouped 0 0 s1' in (f, n, r, true)
    | _ => (0%Z, O, s1, false)
    end in
  if ((ilen + flen)%nat =? 0)%nat then None
  else
    match exponent grouped s2 with
    | None => None
    | Some e =>
        let m := (inject_Z ip + inject_Z fp * pow10 (- Z.of_nat flen))%Q in
        let v := Qred (m * pow10 e) in
        let is_int := negb dotted && match s2 with [] => true | _ => false end in
        Some (is_int, if neg then Qred (- v) else v)
    end.

Definition lower (c : ascii) : ascii :=
  let n := nat_of_ascii c in
  if ((65 <=? n) && (n <=? 90))%nat then ascii_of_nat (n + 32) else c.

(** The words for the values that are no number. *)
Definition special (s : list ascii) : option pyfloat :=
  let '(neg, body) := sign s in
  let w := string_of_list_ascii (map lower body) in
  if String.eqb w "nan" then Some FNaN
  else if (String.eqb w "inf" || String.eqb w "infinity")%bool
       then Some (FInf neg)
       else None.

(** [float(s)] *)
Definition float_of_str (s : string) : option pyfloat :=
  let t := strip_chars (list_ascii_of_string s) in
  match special t with
  | Some f => Some f
  | None =>
      match number true t with
      | Some (_, q) => Some (nearest_double q)
      | None => None
      end
  end.

(** [a + b] on floats. *)
Definition float_add (a b : pyfloat) : pyfloat :=
  match a, b with
  | FNaN, _ | _, FNaN => FNaN
  | FInf s, FInf s' => if Bool.eqb s s' then FInf s else FNaN
  | FInf s, FFin _ | FFin _, FInf s => FInf s
  | FFin p, FFin q => nearest_double (p + q)
  end.

(** The sum SQLite computes before version 3.44: the reals are added one
    after the other, in the order of the scan. *)
Definition sum_reals (vs : list pyfloat) : pyfloat :=
  fold_left float_add vs (FFin 0).

(** Well-formed UTF-8 (Unicode, table 3-7); the position of the first
    offending byte otherwise. *)
Definition between (lo hi : N) (b : byte) : bool :=
  let n := Byte.to_N b in ((lo <=? n) && (n <=? hi))%N.

Definition cont := between 128 191.

Fixpoint utf8_scan (pos : nat) (bs : list byte) : option nat :=
  match bs with
  | [] => None
  | b :: r1 =>
      if between 0 127 b then utf8_scan (S pos) r1
      else
        match r1 with
        | c1 :: r2 =>
            if between 194 223 b && cont c1 then utf8_scan (2 + pos) r2
            else
              match r2 with
              | c2 :: r3 =>
                  if (between 224 224 b && between 160 191 c1
                      || between 225 236 b && cont c1
                      || between 237 237 b && between 128 159 c1
                      || between 238 239 b && cont c1) && cont c2
                  then utf8_scan (3 + pos) r3
                  else
                    match r3 with
                    | c3 :: r4 =>
                        if (between 240 240 b && between 144 191 c1
                            || between 241 243 b && cont c1
                            || between 244 244 b && between 128 143 c1)
                           && cont c2 && cont c3
                        then utf8_scan (4 + pos) r4
                        else Some pos
                    | [] => Some pos
                    end
              | [] => Some pos
              end
        | [] => Some pos
        end
  end.

Definition decode_utf8 (bs : list byte) : result string :=
  match utf8_scan 0 bs with
  | None => Ok (string_of_list_byte bs)
  | Some pos =>
      Raise (LibraryError
               ("'utf-8' codec can't decode byte in position "
                ++ str_int (Z.of_nat pos))%string)
  end.

(** Bytes are read as a [str] when they are UTF-8. *)
Definition str_of_bytes (b : string) : option string :=
  match utf8_scan 0 (list_byte_of_string b) with
  | None => Some b
  | Some _ => None
  end.

(** A small reader of comma-separated text.  The first non-blank line is
    the header.  An empty cell and the usual words for a missing value
    are NaN.  A column is int64 when every cell is an integer literal
    that fits, uint64 when they are all non-negative and fit 64 bits,
    float64 when every cell is a number or is missing, object
    otherwise. *)
Definition chomp (l : list ascii) : list ascii :=
  match rev l with
  | c :: r => if Ascii.eqb c "013"%char then rev r else l
  | [] => l
  end.

Definition drop_bom (l : list ascii) : list ascii :=
  match l with
  | "239"%char :: "187"%char :: "191"%char :: r => r
  | _ => l
  end.

Definition lines (text : string) : list (list ascii) :=
  filter (fun l => negb (Nat.eqb (List.length l) 0))
         (map chomp
              (split_on "010"%char (drop_bom (list_ascii_of_string text)))).

Definition fields (l : list ascii) : list string :=
  map string_of_list_ascii (split_on ","%char l).

(** pandas names an empty header and renames a repeated one. *)
Fixpoint mangle (pos : nat) (seen hs : list string) : list string :=
  match hs with
  | [] => []
  | h0 :: hs' =>
      let h := if String.eqb h0 ""
               then ("Unnamed: " ++ str_int (Z.of_nat pos))%string
               else h0 in
      let k := count_occ string_dec seen h in
      (if Nat.eqb k 0 then h else (h ++ "." ++ str_int (Z.of_nat k))%string)
        :: mangle (S pos) (h :: seen) hs'
  end.

Definition na_words : list string :=
  [""; "#N/A"; "#N/A N/A"; "#NA"; "-1.#IND"; "-1.#QNAN"; "-NaN"; "-nan";
   "1.#IND"; "1.#QNAN"; "<NA>"; "N/A"; "NA"; "NULL"; "NaN"; "None"; "n/a";
   "nan"; "null"].

Definition is_na (s : string) : bool := existsb (String.eqb s) na_words.

(** What a cell is read as. *)
Inductive token :=
| TNa
| TInt (z : Z)
| TFloat (f : pyfloat)
| TText.

Fixpoint lstrip_space (l : list ascii) : list ascii :=
  match l with
  | " "%char :: l' => lstrip_space l'
  | _ => l
  end.

Definition trim_spaces (s : string) : list ascii :=
  rev (lstrip_space (rev (lstrip_space (list_ascii_of_string s)))).

Definition token_of (s : string) : token :=
  if is_na s then TNa
  else
    let t := trim_spaces s in
    match number false t with
    | Some (true, q) => TInt (Qnum q)
    | Some (false, q) => TFloat (nearest_double q)
    | None =>
        match special t with
        | Some (FInf b) => TFloat (FInf b)
        | _ => TText
        end
    end.

Definition column_tokens (rows : list (list string)) (j : nat) : list token :=
  map (fun row => token_of (nth j row "")) rows.

Definition column_dtype (ts : list token) : dtype :=
  let text := existsb (fun t => match t with TText => true | _ => false end) in
  let real := existsb (fun t => match t with
                                | TNa | TFloat _ => true
                                | TInt z => negb ((- 2 ^ 63 <=? z)
                                                  && (z <? 2 ^ 64))%Z
                                | TText => false
                                end) in
  let wide := existsb (fun t => match t with
                                | TInt z => (2 ^ 63 <=? z)%Z
                                | _ => false
                                end) in
  let negative := existsb (fun t => match t with
                                    | TInt z => (z <? 0)%Z
                                    | _ => false
                                    end) in
  if text ts then Object
  else if real ts then Float64
       else if wide ts then (if negative ts then Float64 else UInt64)
            else Int64.

Definition cell (d : dtype) (s : string) : pyval :=
  match d, token_of s with
  | _, TNa => PyFloat FNaN
  | Object, _ => PyStr s
  | Float64, TInt z => PyFloat (float_of_int z)
  | _, TInt z => PyInt z
  | _, TFloat f => PyFloat f
  | _, TText => PyStr s
  end.

Definition read_csv (text : string) : result DataFrame :=
  match map fields (lines text) with
  | [] => Raise (LibraryError "No columns to parse from file")
  | header :: rows =>
      let w := List.length header in
      if existsb (fun row => (w <? List.length row)%nat) rows
      then Raise (LibraryError "Error tokenizing data")
      else
        let ds := map (fun j => column_dtype (column_tokens rows j))
                      (seq 0 w) in
        Ok {| columns := map PyStr (mangle 0 [] header);
              dtypes := ds;
              data := map (fun row =>
                             map (fun jd => cell (snd jd) (nth (fst jd) row ""))
                                 (combine (seq 0 w) ds))
                          rows |}
  end.

Definition read_excel (bs : list byte) : result DataFrame :=
  Raise (LibraryError "Excel file format cannot be determined").

(** The text SQLite keeps for a real stored in a String column: fifteen
    significant digits, in the style of [%!.15g]. *)
Definition digit_char (d : Z) : ascii := ascii_of_nat (48 + Z.to_nat d).

Fixpoint digits_of (n : nat) (z : Z) (acc : list ascii) : list ascii :=
  match n with
  | O => acc
  | S n' => digits_of n' (z / 10) (digit_char (z mod 10) :: acc)
  end.

Fixpoint drop_zeros (l : list ascii) : list ascii :=
  match l with
  | "0"%char :: l' => drop_zeros l'
  | _ => l
  end.

Definition rstrip_zeros (l : list ascii) : list ascii :=
  rev (drop_zeros (rev l)).

(** The decimal exponent of a positive rational. *)
Definition exponent10 (a : Q) : Z :=
  let e := ((Z.log2 (Qnum a) - Z.log2 (Z.pos (Qden a))) * 30103 / 100000)%Z in
  let down := fun x : Z => if Qle_bool (pow10 x) a then x else (x - 1)%Z in
  let up := fun x : Z => if Qle_bool (pow10 (x + 1)) a then (x + 1)%Z else x in
  up (up (down (down e))).

Definition or_zero_digit (l : list ascii) : list ascii :=
  match l with
  | [] => ["0"%char]
  | _ => l
  end.

Definition text_of_finite (q : Q) : string :=
  if Qeq_bool q 0 then "0.0"
  else
    let a := Qabs (Qred q) in
    let x0 := exponent10 a in
    let m0 := round_half_even (a / pow10 (x0 - 14)) in
    let '(x, m) := if (10 ^ 15 <=? m0)%Z then ((x0 + 1)%Z, (m0 / 10)%Z)
                   else (x0, m0) in
    let ds := digits_of 15 m [] in
    let body :=
      if ((x <? -4) || (15 <=? x))%Z then
        match ds with
        | d :: r =>
            (d :: "."%char :: or_zero_digit (rstrip_zeros r))
            ++ ("e"%char :: (if (x <? 0)%Z then "-"%char else "+"%char)
                :: (if (Z.abs x <? 10)%Z then ["0"%char] else [])
                ++ list_ascii_of_string (str_int (Z.abs x)))
        | [] => []
        end
      else if (x <? 0)%Z then
        "0"%char :: "."%char
          :: repeat "0"%char (Z.to_nat (- x - 1)) ++ rstrip_zeros ds
      else
        firstn (Z.to_nat (x + 1)) ds
        ++ "."%char :: or_zero_digit (rstrip_zeros (skipn (Z.to_nat (x + 1)) ds))
    in
    string_of_list_ascii
      ((if Qlt_le_dec q 0 then ["-"%char] else []) ++ body).

Definition text_of_real (f : pyfloat) : string :=
  match f with
  | FNaN => "NaN"
  | FInf false => "Inf"
  | FInf true => "-Inf"
  | FFin q => text_of_finite q
  end.

Definition uuid4 (n : nat) : string :=
  ("uuid-" ++ str_int (Z.of_nat n))%string.

End Ref.

#[export] Instance ref_runtime : Runtime := {|
  decode_utf8 := Ref.decode_utf8;
  read_csv := Ref.read_csv;
  read_excel := Ref.read_excel;
  str_strip := Ref.strip;
  float_of_str := Ref.float_of_str;
  uuid4 := Ref.uuid4;
  text_of_real := Ref.text_of_real;
  sum_reals := Ref.sum_reals;
  str_of_bytes := Ref.str_of_bytes
|}.

(** The bytes of an ASCII text. *)
Definition bytes (s : string) : list byte := list_byte_of_string s.

Definition empty_app : App := {| store := []; draws := 0 |}.

(* ================================================================= *)
(** ** Vocabulary of the statements                                   *)
(* ================================================================= *)

Definition headcount (t : list Employee) : Z := Z.of_nat (List.length t).

Definition is_ok {A} (r : result A) : bool :=
  match r with
  | Ok _ => true
  | Raise _ => false
  end.

(** A float that is the binary64 number nearest to a whole number of
    hundredths. *)
Definition two_decimals (f : pyfloat) : Prop :=
  exists (z : Z) (q : Q), f = FFin q /\ nearest_double (z # 100) = FFin q.

(** The same, asked of a finite float only. *)
Definition two_decimals_if_finite (f : pyfloat) : Prop :=
  match f with
  | FFin _ => two_decimals f
  | _ => True
  end.

(** What [GET /api/employees] reads of a record. *)
Definition public_view (e : Employee)
  : string * option sqltext * option sqltext * option sqltext
    * option pyfloat :=
  (id e, employee_id e, name e, department e, monthly_income e).

(** None of the four fields the response requires is NULL. *)
Definition complete (e : Employee) : bool :=
  match employee_id e, name e, department e, monthly_income e with
  | Some _, Some _, Some _, Some _ => true
  | _, _, _, _ => false
  end.

(** No repetition in [l]. *)
Fixpoint distinct {A} `{Same A} (l : list A) : bool :=
  match l with
  | [] => true
  | x :: l' => negb (mem x l') && distinct l'
  end.

(** The values [news] are pairwise distinct and none is among [olds]. *)
Definition fresh_for {A} `{Same A} (olds news : list A) : bool :=
  distinct news && forallb (fun x => negb (mem x olds)) news.

(** The columns the upload never fills. *)
Definition unfilled (e : Employee) : Prop :=
  age e = None /\ gender e = None /\ job_role e = None /\
  years_at_company e = None /\ performance_rating e = None /\
  overtime e = Some false /\ attrition e = Some false.

(** The requests whose handlers are modelled. *)
Inductive request :=
| GetKpis
| GetEmployees
| PostUpload (file : UploadFile).

Section Vocabulary.
Context {R : Runtime}.

(** The payroll of a table: the sum the database returns, zero when it
    returns NULL. *)
Definition payroll (t : list Employee) : pyfloat :=
  match sum_monthly_income t with
  | Some f => f
  | None => FFin 0
  end.

(** The mean income as the handler computes it before rounding: the
    payroll divided, in floats, by the number of records, and zero for an
    empty table. *)
Definition mean_income (t : list Employee) : pyfloat :=
  if (headcount t =? 0)%Z then FFin 0
  else float_div (payroll t) (float_of_int (headcount t)).

(** The call that builds one entry of the listing. *)
Definition entry (e : Employee) : result EmployeeResponse.t :=
  new_EmployeeResponse (Some (SText (id e))) (employee_id e) (name e)
                       (department e) (monthly_income e).

(** The same call, on what [public_view] keeps of the record. *)
Definition entry_of_view
    (v : string * option sqltext * option sqltext * option sqltext
         * option pyfloat)
  : result EmployeeResponse.t :=
  let '(i, e, n, d, m) := v in
  new_EmployeeResponse (Some (SText i)) e n d m.

(** pydantic accepts the four fields of the record. *)
Definition listable (e : Employee) : bool := is_ok (entry e).

(** The entry [r] carries the five public fields of the record [e], as
    pydantic reads them. *)
Definition exposes (e : Employee) (r : EmployeeResponse.t) : Prop :=
  EmployeeResponse.id r = id e /\
  validate_str (employee_id e) = Ok (EmployeeResponse.employee_id r) /\
  validate_str (name e) = Ok (EmployeeResponse.name r) /\
  validate_str (department e) = Ok (EmployeeResponse.department r) /\
  monthly_income e = Some (EmployeeResponse.monthly_income r).

(** The labels of the table once stripped, when the accessor accepts
    them. *)
Definition stripped (df : DataFrame) : result (list pyval) :=
  str_strip_index str_strip (columns df).

Definition labels_of (df : DataFrame) : list pyval :=
  match stripped df with
  | Ok labels => labels
  | Raise _ => []
  end.

(** The rows the loop of [upload_dataset] visits: none when the labels
    are refused. *)
Definition rows_of (df : DataFrame) : list Series :=
  match stripped df with
  | Ok labels => iterrows (set_columns df labels)
  | Raise _ => []
  end.

(** [float] accepts the row's monthly income. *)
Definition convertible (row : Series) : bool :=
  is_ok (py_float (get row "MonthlyIncome" (PyInt 0))).

(** The driver can bind the row's three text values. *)
Definition bindable (row : Series) : bool :=
  is_ok (bind_text (get row "EmployeeID" PyNone))
  && is_ok (bind_text (get row "Name" PyNone))
  && is_ok (bind_text (get row "Department" PyNone)).

(** The business identifier the row is stored under, when it has one. *)
Definition row_key (row : Series) : option sqltext :=
  match bind_text (get row "EmployeeID" PyNone) with
  | Ok k => k
  | Raise _ => None
  end.

Definition new_keys (rows : list Series) : list sqltext :=
  somes (map row_key rows).

(** The identifiers [count] draws produce from the [n]-th on. *)
Definition new_ids (n count : nat) : list string :=
  map uuid4 (seq n count).

(** The object one turn of the loop adds, when it does not raise. *)
Definition stage (n : nat) (row : Series) : result NewEmployee :=
  income <~ py_float (get row "MonthlyIncome" (PyInt 0)) ;;
  Ok {| new_id := uuid4 n;
        new_employee_id := get row "EmployeeID" PyNone;
        new_name := get row "Name" PyNone;
        new_department := get row "Department" PyNone;
        new_monthly_income := income |}.

Fixpoint stage_all (n : nat) (rows : list Series)
  : result (list NewEmployee) :=
  match rows with
  | [] => Ok []
  | row :: rows' =>
      e <~ stage n row ;;
      es <~ stage_all (S n) rows' ;;
      Ok (e :: es)
  end.

(** Everything an upload needs to succeed once the table is read: the
    labels are accepted, [float] accepts every income, every text value
    can be bound, the identifiers drawn are fresh and the business
    identifiers of the rows are distinct and absent from the store. *)
Definition acceptable (app : App) (df : DataFrame) : bool :=
  is_ok (stripped df)
  && forallb convertible (rows_of df)
  && forallb bindable (rows_of df)
  && fresh_for (ids (store app)) (new_ids (draws app) (len df))
  && fresh_for (keys (store app)) (new_keys (rows_of df)).

(** The file has an accepted suffix and its content is rejected, by the
    codec or by the reader, with the exception [e]. *)
Inductive parse_failure (file : UploadFile) (e : exn) : Prop :=
| csv_not_utf8 :
    endswith (filename file) ".csv" = true ->
    decode_utf8 (contents file) = Raise e ->
    parse_failure file e
| csv_not_a_table (text : string) :
    endswith (filename file) ".csv" = true ->
    decode_utf8 (contents file) = Ok text ->
    read_csv text = Raise e ->
    parse_failure file e
| xlsx_not_a_workbook :
    endswith (filename file) ".csv" = false ->
    endswith (filename file) ".xlsx" = true ->
    read_excel (contents file) = Raise e ->
    parse_failure file e.

(** The application after one request, whatever was answered. *)
Definition serve (rq : request) (app : App) : App :=
  match rq with
  | GetKpis => snd (GET_kpis app)
  | GetEmployees => snd (GET_employees app)
  | PostUpload file => snd (POST_upload file app)
  end.

(** The application after the requests of [rqs], served in order. *)
Definition serve_all (rqs : list request) (app : App) : App :=
  fold_left (fun a rq => serve rq a) rqs app.

(** The record [r] is what the [n]-th draw and the row [row] give: the
    identifier drawn, the row's three text values as the driver binds
    them, its monthly income as [float] reads it, and nothing else. *)
Definition written (n : nat) (row : Series) (r : Employee) : Prop :=
  id r = uuid4 n /\
  bind_text (get row "EmployeeID" PyNone) = Ok (employee_id r) /\
  bind_text (get row "Name" PyNone) = Ok (name r) /\
  bind_text (get row "Department" PyNone) = Ok (department r) /\
  (exists f, py_float (get row "MonthlyIncome" (PyInt 0)) = Ok f
             /\ monthly_income r = bind_real f) /\
  age r = None /\ gender r = None /\ job_role r = None /\
  years_at_company r = None /\ performance_rating r = None /\
  overtime r = Some false /\ attrition r = Some false.

(** One of the four values the listing requires is missing from the row:
    a text value that is bound to NULL, or an income that is NaN. *)
Definition incomplete_row (row : Series) : bool :=
  match bind_text (get row "EmployeeID" PyNone),
        bind_text (get row "Name" PyNone),
        bind_text (get row "Department" PyNone),
        py_float (get row "MonthlyIncome" (PyInt 0)) with
  | Ok (Some _), Ok (Some _), Ok (Some _), Ok (FInf _)
  | Ok (Some _), Ok (Some _), Ok (Some _), Ok (FFin _) => false
  | _, _, _, _ => true
  end.

(** The row gives text, or bytes pydantic reads, for each of the three
    text fields and a real for the income. *)
Definition readable_row (row : Series) : bool :=
  is_ok (v <~ bind_text (get row "EmployeeID" PyNone) ;; validate_str v)
  && is_ok (v <~ bind_text (get row "Name" PyNone) ;; validate_str v)
  && is_ok (v <~ bind_text (get row "Department" PyNone) ;; validate_str v)
  && is_ok (f <~ py_float (get row "MonthlyIncome" (PyInt 0)) ;;
            validate_float (bind_real f)).

End Vocabulary.

(* ================================================================= *)
(** ** Sample files and stores                                        *)
(* ================================================================= *)

Module Samples.

Definition nl : string := String "010"%char "".

Definition csv (name : string) (lines : list string) : UploadFile :=
  {| filename := name;
     contents := bytes (String.concat nl lines ++ nl)%string |}.

(** The example of the specification. *)
Definition roster : UploadFile :=
  csv "roster.csv"
      ["EmployeeID,Name,Department,MonthlyIncome"; "E1,Alice,Eng,5000"].

(** Two more employees. *)
Definition second_roster : UploadFile :=
  csv "second.csv"
      ["EmployeeID,Name,Department,MonthlyIncome";
       "E8,Heidi,Ops,4200.5"; "E9,Ivan,Eng,3100"].

(** A second row that is empty in every column. *)
Definition roster_with_blank : UploadFile :=
  csv "blank.csv"
      ["EmployeeID,Name,Department,MonthlyIncome"; "E1,Alice,Eng,5000"; ",,,"].

(** Incomes 1, 0 and 0. *)
Definition thirds : UploadFile :=
  csv "thirds.csv"
      ["EmployeeID,Name,Department,MonthlyIncome";
       "E1,Alice,Eng,1"; "E2,Bob,Ops,0"; "E3,Carol,Ops,0"].

(** The same business identifier on two rows. *)
Definition twice : UploadFile :=
  csv "twice.csv"
      ["EmployeeID,Name,Department,MonthlyIncome";
       "E1,Alice,Eng,5000"; "E1,Bob,Ops,4000"].

(** A monthly income that is no number. *)
Definition not_a_number : UploadFile :=
  csv "income.csv"
      ["EmployeeID,Name,Department,MonthlyIncome"; "E1,Alice,Eng,abc"].

(** The same business identifier on two rows, and then a monthly income
    that is no number. *)
Definition twice_then_not_a_number : UploadFile :=
  csv "both.csv"
      ["EmployeeID,Name,Department,MonthlyIncome";
       "E1,Alice,Eng,5000"; "E1,Bob,Ops,abc"].

(** A monthly income that is infinite. *)
Definition infinite_income : UploadFile :=
  csv "inf.csv"
      ["EmployeeID,Name,Department,MonthlyIncome"; "E1,Alice,Eng,inf"].

(** Incomes whose sum the database cannot hold exactly. *)
Definition large_incomes : UploadFile :=
  csv "large.csv"
      ["EmployeeID,Name,Department,MonthlyIncome";
       "E1,Alice,Eng,1e16"; "E2,Bob,Ops,1"; "E3,Carol,Ops,1"].

(** Business identifiers that are whole numbers. *)
Definition numbered : UploadFile :=
  csv "numbered.csv"
      ["EmployeeID,Name,Department,MonthlyIncome";
       "101,Alice,Eng,5000"].

(** A table of whole numbers only. *)
Definition whole_numbers : UploadFile :=
  csv "whole.csv" ["EmployeeID,MonthlyIncome"; "101,5000"].

(** A business identifier of twenty digits. *)
Definition long_number : UploadFile :=
  csv "long.csv"
      ["EmployeeID,Name,Department,MonthlyIncome";
       "12345678901234567890,Alice,Eng,5000"].

(** No MonthlyIncome column. *)
Definition no_income : UploadFile :=
  csv "noincome.csv" ["EmployeeID,Name,Department"; "E1,Alice,Eng"].

(** No Name column. *)
Definition no_name : UploadFile :=
  csv "noname.csv" ["EmployeeID,Department,MonthlyIncome"; "E1,Eng,5000"].

(** No Department column. *)
Definition no_department : UploadFile :=
  csv "nodept.csv" ["EmployeeID,Name,MonthlyIncome"; "E1,Alice,5000"].

(** The MonthlyIncome column twice. *)
Definition income_twice : UploadFile :=
  csv "incometwice.csv"
      ["EmployeeID,Name,Department,MonthlyIncome ,MonthlyIncome";
       "E1,Alice,Eng,5000,6000"].

(** A heading and no row. *)
Definition heading_only : UploadFile :=
  csv "heading.csv" ["EmployeeID,Name,Department,MonthlyIncome"].

(** A suffix that is neither of the two. *)
Definition data_txt : UploadFile :=
  {| filename := "data.txt"; contents := contents roster |}.

(** Bytes that are not UTF-8, under an accepted suffix. *)
Definition latin1 : UploadFile :=
  {| filename := "latin1.csv"; contents := [x4e; x61; xef; x76; x65] |}.

(** The record an upload of [roster] stores. *)
Definition alice : Employee :=
  {| id := "uuid-0";
     employee_id := Some (SText "E1");
     name := Some (SText "Alice");
     age := None;
     gender := None;
     department := Some (SText "Eng");
     job_role := None;
     monthly_income := Some (FFin (5000 # 1));
     years_at_company := None;
     overtime := Some false;
     attrition := Some false;
     performance_rating := None |}.

(** The record an upload of [no_name] stores. *)
Definition nameless : Employee :=
  {| id := "uuid-0";
     employee_id := Some (SText "E1");
     name := None;
     age := None;
     gender := None;
     department := Some (SText "Eng");
     job_role := None;
     monthly_income := Some (FFin (5000 # 1));
     years_at_company := None;
     overtime := Some false;
     attrition := Some false;
     performance_rating := None |}.

(** The record an upload of [no_department] stores. *)
Definition unassigned : Employee :=
  {| id := "uuid-0";
     employee_id := Some (SText "E1");
     name := Some (SText "Alice");
     age := None;
     gender := None;
     department := None;
     job_role := None;
     monthly_income := Some (FFin (5000 # 1));
     years_at_company := None;
     overtime := Some false;
     attrition := Some false;
     performance_rating := None |}.

(** Whole numbers in the four columns. *)
Definition all_numbers : UploadFile :=
  csv "numbers.csv"
      ["EmployeeID,Name,Department,MonthlyIncome"; "200,7,3,5000"].

(** No EmployeeID column. *)
Definition anonymous : UploadFile :=
  csv "anonymous.csv"
      ["Name,Department,MonthlyIncome"; "Alice,Eng,5000"; "Bob,Ops,4000"].

(** A row without a monthly income. *)
Definition unpaid : UploadFile :=
  csv "unpaid.csv"
      ["EmployeeID,Name,Department,MonthlyIncome"; "E7,Dan,Ops,"].

(** A record with the given identifier and income and nothing else. *)
Definition bare (i : string) (income : option pyfloat) : Employee :=
  {| id := i;
     employee_id := None;
     name := None;
     age := None;
     gender := None;
     department := None;
     job_role := None;
     monthly_income := income;
     years_at_company := None;
     overtime := Some false;
     attrition := Some false;
     performance_rating := None |}.

(** A table whose labels are whole numbers, as a workbook gives when its
    first row holds numbers. *)
Definition numeric_labels : DataFrame :=
  {| columns := [PyInt 2023; PyInt 2024];
     dtypes := [Int64; Int64];
     data := [[PyInt 1; PyInt 2]] |}.

(** The table a file is read into. *)
Definition frame (file : UploadFile) : DataFrame :=
  match load_frame file with
  | Ok df => df
  | Raise _ => {| columns := []; dtypes := []; data := [] |}
  end.

(** The application after one upload into an empty store. *)
Definition after (file : UploadFile) : App :=
  snd (POST_upload file empty_app).

(** The application after a second upload. *)
Definition after_both (first second : UploadFile) : App :=
  snd (POST_upload second (after first)).

(** A workbook, by name and by what it is read into. *)
Definition workbook : UploadFile :=
  {| filename := "years.xlsx"; contents := [x50; x4b; x03; x04] |}.

End Samples.

(** A runtime that reads every workbook into the table
    [Samples.numeric_labels], and is [ref_runtime] otherwise. *)
Definition workbook_runtime : Runtime :=
  {| decode_utf8 := Ref.decode_utf8;
     read_csv := Ref.read_csv;
     read_excel := fun _ => Ok Samples.numeric_labels;
     str_strip := Ref.strip;
     float_of_str := Ref.float_of_str;
     uuid4 := Ref.uuid4;
     text_of_real := Ref.text_of_real;
     sum_reals := Ref.sum_reals;
     str_of_bytes := Ref.str_of_bytes |}.

(* ================================================================= *)
(** ** Rounding                                                       *)
(* ================================================================= *)

Lemma round_half_even_comp (x y : Q) :
  (x == y)%Q -> round_half_even x = round_half_even y.
Proof.
  intros E. unfold round_half_even.
  rewrite (Qfloor_comp _ _ E).
  assert (C : (x - inject_Z (Qfloor y) ?= 1 # 2)%Q
              = (y - inject_Z (Qfloor y) ?= 1 # 2)%Q).
  { apply Qcompare_comp; [rewrite E|]; reflexivity. }
  rewrite C. reflexivity.
Qed.

(** The nearest double depends on the value of the rational only. *)
Lemma nearest_double_comp (x y : Q) :
  (x == y)%Q -> nearest_double x = nearest_double y.
Proof.
  intros E. unfold nearest_double.
  rewrite (Qred_complete x y E). reflexivity.
Qed.

Lemma nearest_double_zero (x : Q) : (x == 0)%Q -> nearest_double x = FFin 0.
Proof.
  intros E. rewrite (nearest_double_comp E). reflexivity.
Qed.

Lemma nearest_double_not_nan (x : Q) : nearest_double x <> FNaN.
Proof.
  unfold nearest_double.
  destruct (Qeq_bool (Qred x) 0); [discriminate|]. cbv zeta.
  match goal with
  | |- (if ?c then _ else _) <> _ => destruct c
  end; discriminate.
Qed.

Lemma round_float_zero (q : Q) (d : nat) :
  (q == 0)%Q -> round_float (FFin q) d = FFin 0.
Proof.
  intros E. unfold round_float. apply nearest_double_zero.
  rewrite (@round_half_even_comp (q * inject_Z (10 ^ Z.of_nat d)) 0)
    by (rewrite E; ring).
  reflexivity.
Qed.

Lemma float_div_zero (q : Q) (n : Z) :
  (q == 0)%Q -> float_div (FFin q) (float_of_int n) = FFin 0.
Proof.
  intros E. unfold float_of_int.
  destruct (nearest_double (inject_Z n)) as [|s|d] eqn:N.
  - exfalso. exact (@nearest_double_not_nan _ N).
  - reflexivity.
  - simpl. apply nearest_double_zero. rewrite E. unfold Qdiv. ring.
Qed.

(** What [round(f, 2)] returns, when it is finite, is the double nearest
    to a whole number of hundredths. *)
Lemma round_float_two_decimals (f : pyfloat) :
  two_decimals_if_finite (round_float f 2).
Proof.
  destruct f as [| s | q]; try exact I.
  unfold round_float.
  set (z := round_half_even (q * inject_Z (10 ^ Z.of_nat 2))).
  destruct (nearest_double (inject_Z z / inject_Z (10 ^ Z.of_nat 2)))
    as [| s | r] eqn:N; try exact I.
  exists z, r. split; [reflexivity|].
  rewrite <- N. apply nearest_double_comp.
  unfold Qeq, Qdiv, Qmult, Qinv; simpl. lia.
Qed.

(* ================================================================= *)
(** ** GET /api/kpis                                                  *)
(* ================================================================= *)

Lemma or_zero_int_count (t : list Employee) :
  or_zero_int (count_id t) = headcount t.
Proof.
  unfold or_zero_int, count_id, headcount.
  destruct (Z.of_nat (List.length t) =? 0)%Z eqn:E; [|reflexivity].
  apply Z.eqb_eq in E. symmetry. exact E.
Qed.

Section Kpis.
Context {R : Runtime}.

Lemma rounded_payroll (t : list Employee) :
  to_float (round (or_zero (sum_monthly_income t)) 2)
  = round_float (payroll t) 2.
Proof.
  unfold payroll, or_zero.
  destruct (sum_monthly_income t) as [[| s | q]|]; try reflexivity.
  destruct (Qeq_bool q 0) eqn:E; [|reflexivity].
  apply Qeq_bool_iff in E. rewrite (round_float_zero 2 E). reflexivity.
Qed.

Lemma rounded_mean (t : list Employee) :
  to_float
    (round (if (headcount t =? 0)%Z then NInt 0
            else truediv (or_zero (sum_monthly_income t)) (headcount t)) 2)
  = round_float (mean_income t) 2.
Proof.
  unfold mean_income, payroll, or_zero.
  destruct (headcount t =? 0)%Z; [reflexivity|].
  destruct (sum_monthly_income t) as [[| s | q]|]; try reflexivity.
  - destruct (Qeq_bool q 0) eqn:E; [|reflexivity].
    apply Qeq_bool_iff in E. cbn [to_float round truediv].
    rewrite (float_div_zero (headcount t) E).
    rewrite (@nearest_double_zero (inject_Z 0 / inject_Z (headcount t)))
      by (unfold Qdiv; ring).
    reflexivity.
  - cbn [to_float round truediv].
    rewrite (@float_div_zero 0 (headcount t)) by reflexivity.
    rewrite (@nearest_double_zero (inject_Z 0 / inject_Z (headcount t)))
      by (unfold Qdiv; ring).
    reflexivity.
Qed.

(** What the handler answers, in the vocabulary of the statements. *)
Lemma GET_kpis_value (app : App) :
  GET_kpis app =
  (Ok {| KPIResponse.total_employees := headcount (store app);
         KPIResponse.total_payroll_cost := round_float (payroll (store app)) 2;
         KPIResponse.avg_salary := round_float (mean_income (store app)) 2 |},
   app).
Proof.
  destruct app as [t n].
  unfold GET_kpis, get_db, get_kpis, bind, scalar, ret;
    cbn [table store entropy draws].
  rewrite or_zero_int_count, rounded_payroll, rounded_mean. reflexivity.
Qed.

End Kpis.

(** C1, as worded, fails: with incomes 1, 0 and 0 the payroll divided by
    the three records is the double nearest to one third, and the average
    returned is the double nearest to 0.33. *)
Lemma kpi_average_not_the_quotient :
  exists k,
    GET_kpis (Samples.after Samples.thirds)
      = (Ok k, Samples.after Samples.thirds) /\
    (0 < KPIResponse.total_employees k)%Z /\
    float_div (payroll (store (Samples.after Samples.thirds)))
              (float_of_int (headcount (store (Samples.after Samples.thirds))))
      = nearest_double (1 # 3) /\
    KPIResponse.avg_salary k = nearest_double (33 # 100) /\
    KPIResponse.avg_salary k
      <> float_div (payroll (store (Samples.after Samples.thirds)))
                   (float_of_int
                      (headcount (store (Samples.after Samples.thirds)))).
Proof.
  eexists. split; [vm_compute; reflexivity|].
  split; [reflexivity|].
  split; [vm_compute; reflexivity|].
  split; [vm_compute; reflexivity|].
  vm_compute. discriminate.
Qed.

(** C1, amended: for every state of the store the handler answers, the
    count is the number of records, and the average is the payroll sum
    divided by the count in binary64 arithmetic and then rounded by
    [round(., 2)] when there is a record, and zero when there is none;
    with no record the three fields are zero. *)
Theorem kpi_average_rounded {R : Runtime} (app : App) :
  exists k,
    GET_kpis app = (Ok k, app) /\
    KPIResponse.total_employees k = headcount (store app) /\
    if (headcount (store app) =? 0)%Z
    then KPIResponse.total_payroll_cost k = FFin 0
         /\ KPIResponse.avg_salary k = FFin 0
    else KPIResponse.avg_salary k
         = round_float
             (float_div (payroll (store app))
                        (float_of_int (headcount (store app)))) 2.
Proof.
  eexists. split; [apply GET_kpis_value|]. cbn [KPIResponse.total_employees
    KPIResponse.total_payroll_cost KPIResponse.avg_salary].
  split; [reflexivity|].
  unfold mean_income.
  destruct (headcount (store app) =? 0)%Z eqn:E; [|reflexivity].
  apply Z.eqb_eq in E. unfold headcount in E.
  destruct (store app); [|discriminate].
  split; reflexivity.
Qed.

(** C7, as worded, fails: after an upload whose monthly income is [inf]
    the payroll total and the average of the response are infinite, which
    is no number with two decimal places. *)
Lemma kpi_fields_can_be_infinite :
  exists k,
    GET_kpis (Samples.after Samples.infinite_income)
      = (Ok k, Samples.after Samples.infinite_income) /\
    KPIResponse.total_payroll_cost k = FInf false /\
    KPIResponse.avg_salary k = FInf false /\
    ~ two_decimals (KPIResponse.total_payroll_cost k) /\
    ~ two_decimals (KPIResponse.avg_salary k).
Proof.
  eexists. split; [vm_compute; reflexivity|].
  cbn [KPIResponse.total_payroll_cost KPIResponse.avg_salary].
  repeat split; intros [z [q [E _]]]; discriminate.
Qed.

(** C7, amended: for every state of the store, the payroll total and the
    average of the KPI response are what [round(., 2)] makes of the
    payroll sum and of the mean; each of them, when it is finite, is the
    binary64 number nearest to a whole number of hundredths. *)
Theorem kpi_two_decimal_places {R : Runtime} (app : App) :
  exists k,
    GET_kpis app = (Ok k, app) /\
    KPIResponse.total_payroll_cost k = round_float (payroll (store app)) 2 /\
    KPIResponse.avg_salary k = round_float (mean_income (store app)) 2 /\
    two_decimals_if_finite (KPIResponse.total_payroll_cost k) /\
    two_decimals_if_finite (KPIResponse.avg_salary k).
Proof.
  eexists. split; [apply GET_kpis_value|].
  cbn [KPIResponse.total_payroll_cost KPIResponse.avg_salary].
  repeat split; apply round_float_two_decimals.
Qed.

(* ================================================================= *)
(** ** GET /api/employees                                             *)
(* ================================================================= *)

Section Listing.
Context {R : Runtime}.

Lemma GET_employees_value (app : App) :
  GET_employees app = (comprehension entry (store app), app).
Proof.
  destruct app as [t n]. reflexivity.
Qed.

Lemma validate_str_raises (v : option sqltext) (x : exn) :
  validate_str v = Raise x -> x = ValidationError.
Proof.
  destruct v as [[s|b]|]; simpl; try congruence.
  destruct (str_of_bytes b); congruence.
Qed.

(** Whatever [entry] raises is a validation error. *)
Lemma entry_raises (e : Employee) (x : exn) :
  entry e = Raise x -> x = ValidationError.
Proof.
  unfold entry, new_EmployeeResponse. cbn [validate_str rbind].
  destruct (validate_str (employee_id e)) eqn:E1; cbn [rbind];
    [|intros H; injection H as <-; exact (validate_str_raises _ E1)].
  destruct (validate_str (name e)) eqn:E2; cbn [rbind];
    [|intros H; injection H as <-; exact (validate_str_raises _ E2)].
  destruct (validate_str (department e)) eqn:E3; cbn [rbind];
    [|intros H; injection H as <-; exact (validate_str_raises _ E3)].
  destruct (monthly_income e); simpl; congruence.
Qed.

Lemma entry_listable (e : Employee) :
  listable e = true -> exists r, entry e = Ok r /\ exposes e r.
Proof.
  unfold listable, exposes, entry, new_EmployeeResponse.
  cbn [validate_str rbind].
  destruct (validate_str (employee_id e)) as [i|]; cbn [rbind is_ok];
    [|discriminate].
  destruct (validate_str (name e)) as [n|]; cbn [rbind is_ok];
    [|discriminate].
  destruct (validate_str (department e)) as [d|]; cbn [rbind is_ok];
    [|discriminate].
  destruct (monthly_income e) as [m|]; cbn [validate_float rbind is_ok];
    [|discriminate].
  intros _. eexists. split; [reflexivity|]. simpl. repeat split.
Qed.

Lemma entry_not_listable (e : Employee) :
  listable e = false -> entry e = Raise ValidationError.
Proof.
  unfold listable. destruct (entry e) as [r|x] eqn:E; [discriminate|].
  intros _. rewrite (entry_raises e E). reflexivity.
Qed.

(** A record with a NULL among the four required fields is refused. *)
Lemma incomplete_not_listable (e : Employee) :
  complete e = false -> listable e = false.
Proof.
  unfold complete, listable, entry, new_EmployeeResponse.
  cbn [validate_str rbind].
  destruct (employee_id e) as [k|]; [|reflexivity].
  destruct (validate_str (Some k)); [|reflexivity]. cbn [rbind].
  destruct (name e) as [n|]; [|reflexivity].
  destruct (validate_str (Some n)); [|reflexivity]. cbn [rbind].
  destruct (department e) as [d|]; [|reflexivity].
  destruct (validate_str (Some d)); [|reflexivity]. cbn [rbind].
  destruct (monthly_income e) as [m|]; [discriminate|reflexivity].
Qed.

Lemma listing_listable (t : list Employee) :
  forallb listable t = true ->
  exists rs, comprehension entry t = Ok rs /\ Forall2 exposes t rs.
Proof.
  induction t as [|e t IH]; simpl; intros H.
  - exists []. split; [reflexivity|constructor].
  - apply andb_prop in H. destruct H as [He Ht].
    destruct (entry_listable e He) as [r [Er Xr]].
    destruct (IH Ht) as [rs [Ers Xrs]].
    exists (r :: rs). rewrite Er, Ers. split; [reflexivity|].
    constructor; assumption.
Qed.

Lemma listing_not_listable (t : list Employee) :
  forallb listable t = false ->
  comprehension entry t = Raise ValidationError.
Proof.
  induction t as [|e t IH]; simpl; intros H; [discriminate|].
  destruct (listable e) eqn:He.
  - destruct (entry_listable e He) as [r [Er _]]. rewrite Er. simpl.
    rewrite (IH H). reflexivity.
  - rewrite (entry_not_listable e He). reflexivity.
Qed.

(** Whatever the listing raises is a validation error. *)
Lemma listing_raises (t : list Employee) (x : exn) :
  comprehension entry t = Raise x -> x = ValidationError.
Proof.
  destruct (forallb listable t) eqn:L.
  - destruct (listing_listable t L) as [rs [E _]]. congruence.
  - rewrite (listing_not_listable t L). congruence.
Qed.

Lemma listing_of_views (t : list Employee) :
  comprehension entry t = comprehension entry_of_view (map public_view t).
Proof.
  induction t as [|e t IH]; simpl; [reflexivity|].
  rewrite IH. reflexivity.
Qed.

(** A NULL among the four required fields of some record makes the
    listing fail. *)
Lemma listing_incomplete (t : list Employee) :
  forallb complete t = false ->
  comprehension entry t = Raise ValidationError.
Proof.
  intros H. apply listing_not_listable.
  induction t as [|e t IH]; simpl in *; [discriminate|].
  destruct (complete e) eqn:C.
  - rewrite (IH H). apply andb_false_r.
  - rewrite (incomplete_not_listable e C). reflexivity.
Qed.

End Listing.

(** C8, on a store the upload endpoint produces: after an upload without
    a Department column the store holds a record, and the listing returns
    no entry for it but fails with a validation error, answered with
    status 500. *)
Lemma employees_listing_not_total :
  store (Samples.after Samples.no_department) = [Samples.unassigned] /\
  GET_employees (Samples.after Samples.no_department)
    = (Raise ValidationError, Samples.after Samples.no_department) /\
  status_of (fst (GET_employees (Samples.after Samples.no_department)))
    = 500%Z /\
  ~ exists rs,
      fst (GET_employees (Samples.after Samples.no_department)) = Ok rs.
Proof.
  split; [vm_compute; reflexivity|].
  split; [vm_compute; reflexivity|].
  split; [reflexivity|].
  intros [rs H]. vm_compute in H. discriminate.
Qed.

(** C8, what the code does: when pydantic accepts the employee_id, name,
    department and monthly_income of every record (none of them NULL, no
    BLOB it cannot read as a string), the listing has one entry per
    record, in the order of the store, carrying that record's id,
    employee_id, name, department and monthly_income; otherwise the
    request fails with a validation error, answered with status 500, and
    returns no record.  In both cases the answer is a function of those
    five columns alone, so that age, gender, job role, tenure, overtime,
    attrition and performance rating never reach the response. *)
Theorem employees_reduced_shape {R : Runtime} :
  (forall app : App,
      if forallb listable (store app)
      then exists rs,
             GET_employees app = (Ok rs, app) /\
             Forall2 exposes (store app) rs
      else GET_employees app = (Raise ValidationError, app)
           /\ status_of (fst (GET_employees app)) = 500%Z) /\
  (forall app (e : Employee),
      In e (store app) -> complete e = false ->
      GET_employees app = (Raise ValidationError, app)) /\
  (exists F, forall app : App,
      fst (GET_employees app) = F (map public_view (store app))).
Proof.
  split; [|split].
  - intros app. rewrite GET_employees_value.
    destruct (forallb listable (store app)) eqn:C.
    + destruct (listing_listable _ C) as [rs [E X]].
      exists rs. rewrite E. split; [reflexivity|assumption].
    + rewrite (listing_not_listable _ C). split; reflexivity.
  - intros app e I C.
    rewrite GET_employees_value, listing_incomplete; [reflexivity|].
    destruct (forallb complete (store app)) eqn:F; [|reflexivity].
    rewrite forallb_forall in F. rewrite (F e I) in C. discriminate.
  - exists (comprehension entry_of_view). intros app.
    rewrite GET_employees_value. simpl. apply listing_of_views.
Qed.

(** C9: if a record of the store has a NULL employee_id, name, department
    or monthly_income, the listing fails with a validation error, which
    the framework answers with status 500, and returns no record. *)
Theorem employees_null_field_server_error {R : Runtime}
    (app : App) (e : Employee) :
  In e (store app) ->
  employee_id e = None \/ name e = None \/ department e = None
    \/ monthly_income e = None ->
  GET_employees app = (Raise ValidationError, app) /\
  status_of (fst (GET_employees app)) = 500%Z.
Proof.
  intros I N.
  assert (C : forallb complete (store app) = false).
  { destruct (forallb complete (store app)) eqn:F; [|reflexivity].
    rewrite forallb_forall in F. specialize (F e I).
    unfold complete in F.
    destruct N as [N|[N|[N|N]]]; rewrite N in F;
      destruct (employee_id e), (name e), (department e); discriminate. }
  rewrite GET_employees_value, (listing_incomplete _ C).
  split; reflexivity.
Qed.

Lemma employees_null_field_server_error_witness :
  In Samples.nameless (store (Samples.after Samples.no_name)) /\
  (employee_id Samples.nameless = None \/ name Samples.nameless = None
   \/ department Samples.nameless = None
   \/ monthly_income Samples.nameless = None) /\
  GET_employees (Samples.after Samples.no_name)
    = (Raise ValidationError, Samples.after Samples.no_name) /\
  status_of (fst (GET_employees (Samples.after Samples.no_name))) = 500%Z.
Proof.
  assert (I : In Samples.nameless (store (Samples.after Samples.no_name)))
    by (vm_compute; left; reflexivity).
  assert (N : employee_id Samples.nameless = None
              \/ name Samples.nameless = None
              \/ department Samples.nameless = None
              \/ monthly_income Samples.nameless = None)
    by (right; left; reflexivity).
  exact (conj I (conj N
           (employees_null_field_server_error
              (Samples.after Samples.no_name) Samples.nameless I N))).
Defined.

(* ================================================================= *)
(** ** Freshness of identifiers                                       *)
(* ================================================================= *)

Lemma same_string_eq (x y : string) : same x y = true <-> x = y.
Proof.
  apply String.eqb_eq.
Qed.

Lemma same_sqltext_eq (x y : sqltext) : same x y = true <-> x = y.
Proof.
  unfold same, same_sqltext, sqltext_eqb.
  destruct x as [x|x], y as [y|y]; try rewrite String.eqb_eq;
    split; intros H; try discriminate; congruence.
Qed.

Section Fresh.
Variable A : Type.
Context {S : Same A}.
Hypothesis same_eq : forall x y : A, same x y = true <-> x = y.

Lemma same_sym (x y : A) : same x y = same y x.
Proof.
  destruct (same x y) eqn:E, (same y x) eqn:E'; try reflexivity.
  - apply same_eq in E. subst. 
    assert (T : same y y = true) by (apply same_eq; reflexivity). congruence.
  - apply same_eq in E'. subst.
    assert (T : same x x = true) by (apply same_eq; reflexivity). congruence.
Qed.

Lemma mem_In (x : A) (l : list A) : mem x l = true <-> In x l.
Proof.
  unfold mem. rewrite existsb_exists. split.
  - intros [y [I E]]. apply same_eq in E. subst. exact I.
  - intros I. exists x. split; [exact I|apply same_eq; reflexivity].
Qed.

Lemma mem_snoc (y x : A) (l : list A) :
  mem y (l ++ [x]) = mem y l || same y x.
Proof.
  unfold mem. rewrite existsb_app. simpl. rewrite orb_false_r. reflexivity.
Qed.

Lemma forallb_not_mem_snoc (x : A) (olds news : list A) :
  forallb (fun y => negb (mem y (olds ++ [x]))) news
  = forallb (fun y => negb (mem y olds)) news && negb (mem x news).
Proof.
  induction news as [|y news IH]; simpl; [reflexivity|].
  rewrite IH, mem_snoc, (same_sym x y).
  destruct (mem y olds), (same y x),
    (forallb (fun y0 => negb (mem y0 olds)) news), (mem x news); reflexivity.
Qed.

(** Checking a list against a table is checking its head, then its tail
    against the table extended with the head. *)
Lemma fresh_for_cons (olds : list A) (x : A) (news : list A) :
  fresh_for olds (x :: news)
  = negb (mem x olds) && fresh_for (olds ++ [x]) news.
Proof.
  unfold fresh_for. simpl. rewrite forallb_not_mem_snoc.
  destruct (mem x news), (distinct news), (mem x olds),
    (forallb (fun y => negb (mem y olds)) news); reflexivity.
Qed.

Lemma distinct_NoDup (l : list A) : distinct l = true <-> NoDup l.
Proof.
  induction l as [|x l IH]; simpl.
  - split; [constructor|reflexivity].
  - rewrite andb_true_iff, negb_true_iff, IH. split.
    + intros [M D]. constructor; [|exact D].
      intros I. apply mem_In in I. congruence.
    + intros N. inversion N as [|? ? NI ND]; subst. split; [|exact ND].
      destruct (mem x l) eqn:M; [|reflexivity].
      apply mem_In in M. contradiction.
Qed.

(** [fresh_for] decides what it is named after. *)
Lemma fresh_for_spec (olds news : list A) :
  fresh_for olds news = true
  <-> NoDup news /\ (forall k, In k news -> ~ In k olds).
Proof.
  unfold fresh_for. rewrite andb_true_iff, distinct_NoDup, forallb_forall.
  split; intros [D F]; (split; [exact D|]); intros k I.
  - specialize (F k I). apply negb_true_iff in F.
    intros O. apply mem_In in O. congruence.
  - apply negb_true_iff. destruct (mem k olds) eqn:M; [|reflexivity].
    apply mem_In in M. exfalso. exact (F k I M).
Qed.

Lemma distinct_snoc (l : list A) (x : A) :
  distinct (l ++ [x]) = distinct l && negb (mem x l).
Proof.
  induction l as [|a l IH]; [reflexivity|].
  change (distinct ((a :: l) ++ [x]))
    with (negb (mem a (l ++ [x])) && distinct (l ++ [x])).
  change (distinct (a :: l)) with (negb (mem a l) && distinct l).
  change (mem x (a :: l)) with (same x a || mem x l).
  rewrite IH, mem_snoc, (same_sym x a).
  destruct (mem a l), (same a x), (distinct l), (mem x l); reflexivity.
Qed.

(** Fresh values appended to distinct ones are distinct. *)
Lemma distinct_app_fresh (news olds : list A) :
  distinct olds = true -> fresh_for olds news = true ->
  distinct (olds ++ news) = true.
Proof.
  revert olds. induction news as [|x news IH]; intros olds D F.
  - rewrite app_nil_r. exact D.
  - rewrite fresh_for_cons in F. apply andb_prop in F. destruct F as [M F].
    change (x :: news) with ([x] ++ news). rewrite app_assoc.
    apply IH; [|exact F].
    rewrite distinct_snoc, D, M. reflexivity.
Qed.

End Fresh.

Lemma somes_app {A} (l l' : list (option A)) :
  somes (l ++ l') = somes l ++ somes l'.
Proof.
  induction l as [|[a|] l IH]; simpl; [reflexivity| |exact IH].
  rewrite IH. reflexivity.
Qed.

Lemma keys_app (t t' : list Employee) : keys (t ++ t') = keys t ++ keys t'.
Proof.
  unfold keys. rewrite map_app. apply somes_app.
Qed.

Lemma keys_cons (r : Employee) (t : list Employee) :
  keys (r :: t)
  = match employee_id r with
    | Some k => k :: keys t
    | None => keys t
    end.
Proof.
  unfold keys. simpl. destruct (employee_id r); reflexivity.
Qed.

Lemma ids_app (t t' : list Employee) : ids (t ++ t') = ids t ++ ids t'.
Proof.
  apply map_app.
Qed.

Lemma comprehension_length {A B} (f : A -> result B) (xs : list A)
    (ys : list B) :
  comprehension f xs = Ok ys -> List.length ys = List.length xs.
Proof.
  revert ys. induction xs as [|x xs IH]; simpl; intros ys H.
  - inversion H. reflexivity.
  - destruct (f x); simpl in H; [|discriminate].
    destruct (comprehension f xs); simpl in H; [|discriminate].
    inversion H. simpl. f_equal. apply IH. reflexivity.
Qed.

Lemma comprehension_app {A B} (f : A -> result B) (xs xs' : list A)
    (ys ys' : list B) :
  comprehension f xs = Ok ys -> comprehension f xs' = Ok ys' ->
  comprehension f (xs ++ xs') = Ok (ys ++ ys').
Proof.
  revert ys. induction xs as [|x xs IH]; simpl; intros ys H H'.
  - inversion H. exact H'.
  - destruct (f x); simpl in H; [|discriminate].
    destruct (comprehension f xs) as [zs|]; simpl in H; [|discriminate].
    inversion H. rewrite (IH zs eq_refl H'). reflexivity.
Qed.

(* ================================================================= *)
(** ** The flush of a commit                                          *)
(* ================================================================= *)

Section Flush.
Context {R : Runtime}.

Lemma bind_text_raises (v : pyval) (x : exn) :
  bind_text v = Raise x -> x = OverflowError \/ x = InterfaceError.
Proof.
  destruct v as [| z | z | [| s | q] | s |]; simpl; try congruence.
  - destruct (fits_int64 z); [discriminate|]. intros H. left. congruence.
  - intros H. right. congruence.
Qed.

Lemma insert_row_raises (e : NewEmployee) (x : exn) :
  insert_row e = Raise x -> x = OverflowError \/ x = InterfaceError.
Proof.
  unfold insert_row.
  destruct (bind_text (new_employee_id e)) eqn:B1; simpl;
    [|intros H; inversion H; subst; eapply bind_text_raises; eassumption].
  destruct (bind_text (new_name e)) eqn:B2; simpl;
    [|intros H; inversion H; subst; eapply bind_text_raises; eassumption].
  destruct (bind_text (new_department e)) eqn:B3; simpl;
    [|intros H; inversion H; subst; eapply bind_text_raises; eassumption].
  discriminate.
Qed.

(** When every pending object can be bound, the flush writes all of them
    if their identifiers are fresh, and fails on a constraint if not. *)
Lemma flush_value (ps : list NewEmployee) :
  forall (t rows : list Employee),
    comprehension insert_row ps = Ok rows ->
    flush t ps =
    if fresh_for (ids t) (ids rows) && fresh_for (keys t) (keys rows)
    then Ok (t ++ rows)
    else Raise IntegrityError.
Proof.
  induction ps as [|e ps IH]; simpl; intros t rows H.
  - inversion H. simpl. rewrite app_nil_r. reflexivity.
  - destruct (insert_row e) as [r|] eqn:Er; simpl in H; [|discriminate].
    destruct (comprehension insert_row ps) as [rows'|] eqn:Ers;
      simpl in H; [|discriminate].
    inversion H; subst rows. clear H. unfold rbind.
    change (ids (r :: rows')) with (id r :: ids rows').
    rewrite (fresh_for_cons same_string_eq), (keys_cons r rows').
    rewrite (IH (t ++ [r]) rows' eq_refl).
    rewrite ids_app, keys_app, <- app_assoc, (keys_cons r []).
    change (ids [r]) with [id r]. change (keys []) with (@nil sqltext).
    change ([r] ++ rows') with (r :: rows').
    unfold violates.
    destruct (mem (id r) (ids t)); [reflexivity|].
    destruct (employee_id r) as [k|].
    + rewrite (fresh_for_cons same_sqltext_eq).
      destruct (mem k (keys t)); simpl;
        [rewrite andb_false_r|]; reflexivity.
    + rewrite app_nil_r. reflexivity.
Qed.

(** A flush raises nothing but a constraint or a binding error. *)
Lemma flush_raises (ps : list NewEmployee) :
  forall (t : list Employee) (x : exn),
    flush t ps = Raise x ->
    x = IntegrityError \/ x = OverflowError \/ x = InterfaceError.
Proof.
  induction ps as [|e ps IH]; simpl; intros t x H; [discriminate|].
  destruct (insert_row e) as [r|] eqn:Er; simpl in H.
  - destruct (violates t r).
    + inversion H. left. reflexivity.
    + eapply IH. eassumption.
  - inversion H; subst. right. eapply insert_row_raises. eassumption.
Qed.

(** A flush that succeeds has appended one row per pending object. *)
Lemma flush_appends (ps : list NewEmployee) :
  forall (t t' : list Employee),
    flush t ps = Ok t' ->
    exists rows,
      comprehension insert_row ps = Ok rows /\ t' = t ++ rows.
Proof.
  induction ps as [|e ps IH]; simpl; intros t t' H.
  - inversion H. exists []. rewrite app_nil_r. split; reflexivity.
  - destruct (insert_row e) as [r|] eqn:Er; simpl in H; [|discriminate].
    destruct (violates t r); [discriminate|].
    destruct (IH _ _ H) as [rows [E T]].
    exists (r :: rows). rewrite E. simpl. split; [reflexivity|].
    rewrite T, <- app_assoc. reflexivity.
Qed.

End Flush.

(* ================================================================= *)
(** ** The loop over the rows                                         *)
(* ================================================================= *)

Section Loop.
Context {R : Runtime}.

Lemma ingest_row_value (row : Series) (s : Session) :
  ingest_row row s =
  match stage (entropy s) row with
  | Ok e => (Ok tt, {| table := table s;
                       pending := pending s ++ [e];
                       entropy := S (entropy s) |})
  | Raise x => (Raise x, {| table := table s;
                            pending := pending s;
                            entropy := S (entropy s) |})
  end.
Proof.
  unfold ingest_row, stage, bind, fresh_uuid, lift, add.
  destruct (py_float (get row "MonthlyIncome" (PyInt 0))); reflexivity.
Qed.

(** A loop that runs to its end has staged one object per row and has not
    touched the table. *)
Lemma loop_completes (rows : list Series) :
  forall (s : Session) (news : list NewEmployee),
    stage_all (entropy s) rows = Ok news ->
    for_each rows ingest_row s =
    (Ok tt, {| table := table s;
               pending := pending s ++ news;
               entropy := (entropy s + List.length rows)%nat |}).
Proof.
  induction rows as [|row rows IH]; simpl; intros s news H.
  - inversion H. rewrite app_nil_r, Nat.add_0_r. destruct s; reflexivity.
  - unfold bind. rewrite ingest_row_value.
    destruct (stage (entropy s) row) as [e|] eqn:E; simpl in H;
      [|discriminate].
    destruct (stage_all (S (entropy s)) rows) as [es|] eqn:Es; simpl in H;
      [|discriminate].
    inversion H; subst news.
    rewrite (IH _ es) by exact Es. simpl.
    rewrite <- app_assoc, Nat.add_succ_r. reflexivity.
Qed.

(** A loop that raises leaves the table as it was. *)
Lemma loop_raises (rows : list Series) :
  forall (s : Session) (x : exn),
    stage_all (entropy s) rows = Raise x ->
    exists s', for_each rows ingest_row s = (Raise x, s')
               /\ table s' = table s.
Proof.
  induction rows as [|row rows IH]; simpl; intros s x H; [discriminate|].
  unfold bind. rewrite ingest_row_value.
  destruct (stage (entropy s) row) as [e|] eqn:E; simpl in H.
  - destruct (stage_all (S (entropy s)) rows) as [es|] eqn:Es; simpl in H;
      [discriminate|].
    inversion H; subst x.
    destruct (IH {| table := table s;
                    pending := pending s ++ [e];
                    entropy := S (entropy s) |} e0 Es) as [s' [L T]].
    exists s'. split; assumption.
  - inversion H; subst x. eexists. split; reflexivity.
Qed.

Lemma py_float_raises (v : pyval) (x : exn) :
  py_float v = Raise x ->
  x = ValueError \/ x = TypeError \/ x = OverflowError.
Proof.
  destruct v as [| z | z | f | s |]; simpl; intros H;
    try (inversion H; auto; fail).
  - destruct (float_of_int z); inversion H; auto.
  - destruct (float_of_str s); inversion H; auto.
Qed.

Lemma stage_raises (n : nat) (row : Series) (x : exn) :
  stage n row = Raise x ->
  x = ValueError \/ x = TypeError \/ x = OverflowError.
Proof.
  unfold stage.
  destruct (py_float (get row "MonthlyIncome" (PyInt 0))) eqn:F; simpl;
    [discriminate|].
  intros H. inversion H; subst. eapply py_float_raises. eassumption.
Qed.

Lemma stage_all_raises (rows : list Series) :
  forall (n : nat) (x : exn),
    stage_all n rows = Raise x ->
    x = ValueError \/ x = TypeError \/ x = OverflowError.
Proof.
  induction rows as [|row rows IH]; simpl; intros n x H; [discriminate|].
  destruct (stage n row) eqn:E; simpl in H.
  - destruct (stage_all (S n) rows) eqn:Es; simpl in H; [discriminate|].
    inversion H; subst. eapply IH. eassumption.
  - inversion H; subst. eapply stage_raises. eassumption.
Qed.

Lemma stage_all_length (rows : list Series) :
  forall (n : nat) (news : list NewEmployee),
    stage_all n rows = Ok news -> List.length news = List.length rows.
Proof.
  induction rows as [|row rows IH]; simpl; intros n news H.
  - inversion H. reflexivity.
  - destruct (stage n row); simpl in H; [|discriminate].
    destruct (stage_all (S n) rows) eqn:Es; simpl in H; [|discriminate].
    inversion H. simpl. f_equal. eapply IH. eassumption.
Qed.

(** The loop runs to its end exactly when [float] accepts every income. *)
Lemma stage_all_convertible (rows : list Series) :
  forall n : nat,
    is_ok (stage_all n rows) = forallb convertible rows.
Proof.
  induction rows as [|row rows IH]; simpl; intros n; [reflexivity|].
  rewrite <- (IH (S n)). unfold convertible, stage.
  destruct (py_float (get row "MonthlyIncome" (PyInt 0))); simpl;
    [|reflexivity].
  destruct (stage_all (S n) rows); reflexivity.
Qed.

End Loop.

(* ================================================================= *)
(** ** POST /api/etl/upload: the shape of a request                   *)
(* ================================================================= *)

Section Upload.
Context {R : Runtime}.

Lemma stripped_raises (df : DataFrame) (x : exn) :
  stripped df = Raise x -> x = AttributeError.
Proof.
  unfold stripped, str_strip_index.
  destruct (columns df) as [|l ls]; [discriminate|].
  destruct (existsb is_text (l :: ls)); congruence.
Qed.

Lemma rows_of_stripped (df : DataFrame) (labels : list pyval) :
  stripped df = Ok labels ->
  rows_of df = iterrows (set_columns df labels).
Proof.
  intros H. unfold rows_of. rewrite H. reflexivity.
Qed.

Lemma rows_of_length (df : DataFrame) :
  is_ok (stripped df) = true -> List.length (rows_of df) = len df.
Proof.
  unfold rows_of. destruct (stripped df); [|discriminate]. intros _.
  unfold iterrows, len. rewrite length_map. reflexivity.
Qed.

Lemma rows_of_index (df : DataFrame) (row : Series) :
  In row (rows_of df) -> index row = labels_of df.
Proof.
  unfold rows_of, labels_of. destruct (stripped df); [|intros []].
  unfold iterrows. rewrite in_map_iff.
  intros [vs [E _]]. subst row. reflexivity.
Qed.

(** Rows are visited only when the labels are accepted. *)
Lemma rows_of_nonempty (df : DataFrame) :
  rows_of df <> [] -> is_ok (stripped df) = true.
Proof.
  unfold rows_of. destruct (stripped df); [reflexivity|congruence].
Qed.

(** A file that is refused changes nothing, not even the draws. *)
Lemma upload_refused (file : UploadFile) (app : App) (x : exn) :
  load_frame file = Raise x -> POST_upload file app = (Raise x, app).
Proof.
  intros H. unfold POST_upload, get_db, upload_dataset, bind, lift.
  rewrite H. destruct app; reflexivity.
Qed.

(** Labels the [str] accessor refuses end the request before the loop. *)
Lemma upload_labels_refused (file : UploadFile) (app : App) (df : DataFrame) :
  load_frame file = Ok df ->
  is_ok (stripped df) = false ->
  POST_upload file app = (Raise AttributeError, app).
Proof.
  intros H K. unfold POST_upload, get_db, upload_dataset, bind, lift.
  rewrite H. change (str_strip_index str_strip (columns df))
               with (stripped df).
  destruct (stripped df) as [labels|x] eqn:S; [discriminate|].
  rewrite (stripped_raises df S). destruct app; reflexivity.
Qed.

(** An error in the loop ends the request before the commit. *)
Lemma upload_loop_fails (file : UploadFile) (app : App) (df : DataFrame)
    (x : exn) :
  load_frame file = Ok df ->
  stage_all (draws app) (rows_of df) = Raise x ->
  exists app', POST_upload file app = (Raise x, app')
               /\ store app' = store app.
Proof.
  intros H S. unfold rows_of in S.
  destruct (stripped df) as [labels|y] eqn:St; [|discriminate].
  destruct (loop_raises (iterrows (set_columns df labels))
              {| table := store app; pending := []; entropy := draws app |}
              S) as [s' [L T]].
  unfold POST_upload, get_db, upload_dataset, bind, lift.
  rewrite H. change (str_strip_index str_strip (columns df))
               with (stripped df).
  rewrite St. unfold bind in L. rewrite L.
  eexists. split; [reflexivity|exact T].
Qed.

(** A loop that ends hands its objects to the commit, which decides. *)
Lemma upload_commits (file : UploadFile) (app : App) (df : DataFrame)
    (news : list NewEmployee) :
  load_frame file = Ok df ->
  is_ok (stripped df) = true ->
  stage_all (draws app) (rows_of df) = Ok news ->
  POST_upload file app =
  match flush (store app) news with
  | Ok t' =>
      (Ok {| status := "success"; rows_inserted := len df |},
       {| store := t'; draws := (draws app + len df)%nat |})
  | Raise x =>
      (Raise x, {| store := store app; draws := (draws app + len df)%nat |})
  end.
Proof.
  intros H K S. pose proof (rows_of_length df K) as N.
  unfold rows_of in S, N.
  destruct (stripped df) as [labels|y] eqn:St; [|discriminate].
  pose proof (loop_completes (iterrows (set_columns df labels))
                {| table := store app; pending := []; entropy := draws app |}
                S) as L.
  unfold POST_upload, get_db, upload_dataset, bind, lift.
  rewrite H. change (str_strip_index str_strip (columns df))
               with (stripped df).
  rewrite St. unfold bind in L. rewrite L.
  unfold commit, ret. cbn [table pending entropy List.app].
  rewrite N. change (len (set_columns df labels)) with (len df).
  destruct (flush (store app) news); reflexivity.
Qed.

Lemma stage_insert (n : nat) (row : Series) (e : NewEmployee) :
  stage n row = Ok e -> is_ok (insert_row e) = bindable row.
Proof.
  unfold stage, insert_row, bindable.
  destruct (py_float (get row "MonthlyIncome" (PyInt 0))); simpl;
    [|discriminate].
  intros H. inversion H; subst e. simpl.
  destruct (bind_text (get row "EmployeeID" PyNone)); simpl; [|reflexivity].
  destruct (bind_text (get row "Name" PyNone)); simpl; [|reflexivity].
  destruct (bind_text (get row "Department" PyNone)); reflexivity.
Qed.

(** What is written for a row that was staged and bound. *)
Lemma stage_insert_written (n : nat) (row : Series) (e : NewEmployee)
    (r : Employee) :
  stage n row = Ok e -> insert_row e = Ok r -> written n row r.
Proof.
  unfold stage, insert_row, written.
  destruct (py_float (get row "MonthlyIncome" (PyInt 0))) as [f|]; simpl;
    [|discriminate].
  intros H. inversion H; subst e. simpl.
  destruct (bind_text (get row "EmployeeID" PyNone)); simpl; [|discriminate].
  destruct (bind_text (get row "Name" PyNone)); simpl; [|discriminate].
  destruct (bind_text (get row "Department" PyNone)); simpl; [|discriminate].
  intros I. inversion I; subst r. simpl.
  repeat split. exists f. split; reflexivity.
Qed.

Lemma written_key (n : nat) (row : Series) (r : Employee) :
  written n row r -> id r = uuid4 n /\ employee_id r = row_key row.
Proof.
  unfold written, row_key. intros [I [K _]]. rewrite K. split; [exact I|].
  reflexivity.
Qed.

(** The binding of the staged objects succeeds exactly when every row is
    bindable. *)
Lemma insert_all_bindable (rows : list Series) :
  forall (n : nat) (news : list NewEmployee),
    stage_all n rows = Ok news ->
    is_ok (comprehension insert_row news) = forallb bindable rows.
Proof.
  induction rows as [|row rows IH]; simpl; intros n news H.
  - inversion H. reflexivity.
  - destruct (stage n row) as [e|] eqn:E; simpl in H; [|discriminate].
    destruct (stage_all (S n) rows) as [es|] eqn:Es; simpl in H;
      [|discriminate].
    inversion H; subst news. simpl.
    rewrite <- (IH _ _ Es), <- (stage_insert _ _ E).
    destruct (insert_row e); simpl; [|reflexivity].
    destruct (comprehension insert_row es); reflexivity.
Qed.

(** The records written are, in order, what the rows and the draws
    give. *)
Lemma written_all (rows : list Series) :
  forall (n : nat) (news : list NewEmployee) (rs : list Employee),
    stage_all n rows = Ok news ->
    comprehension insert_row news = Ok rs ->
    Forall2 (fun p r => written (fst p) (snd p) r)
            (combine (seq n (List.length rows)) rows) rs.
Proof.
  induction rows as [|row rows IH]; simpl; intros n news rs H I.
  - inversion H; subst news. inversion I. constructor.
  - destruct (stage n row) as [e|] eqn:E; simpl in H; [|discriminate].
    destruct (stage_all (S n) rows) as [es|] eqn:Es; simpl in H;
      [|discriminate].
    inversion H; subst news. simpl in I.
    destruct (insert_row e) as [r|] eqn:Er; simpl in I; [|discriminate].
    destruct (comprehension insert_row es) as [rs'|] eqn:Ers; simpl in I;
      [|discriminate].
    inversion I; subst rs.
    constructor; [|eapply IH; eassumption].
    exact (stage_insert_written _ _ E Er).
Qed.

(** The identifiers of the rows written are the draws of the request and
    the business identifiers of its rows. *)
Lemma written_ids_keys (rows : list Series) :
  forall (n : nat) (rs : list Employee),
    Forall2 (fun p r => written (fst p) (snd p) r)
            (combine (seq n (List.length rows)) rows) rs ->
    ids rs = new_ids n (List.length rows) /\ keys rs = new_keys rows.
Proof.
  induction rows as [|row rows IH]; simpl; intros n rs W.
  - inversion W. split; reflexivity.
  - inversion W as [|p r ps rs' Wr Ws]; subst.
    destruct (IH _ _ Ws) as [Hi Hk].
    destruct (written_key Wr) as [Xi Xk]. simpl in Xi, Xk.
    split.
    + unfold new_ids. simpl. fold (new_ids (S n) (List.length rows)).
      rewrite <- Hi, <- Xi. reflexivity.
    + rewrite keys_cons, Xk, Hk. unfold new_keys. simpl.
      destruct (row_key row); reflexivity.
Qed.

Lemma status_of_loop_error (x : exn) :
  x = ValueError \/ x = TypeError \/ x = OverflowError ->
  status_of_exn x = 500%Z.
Proof.
  intros [H|[H|H]]; subst; reflexivity.
Qed.

Lemma status_of_flush_error (x : exn) :
  x = IntegrityError \/ x = OverflowError \/ x = InterfaceError ->
  status_of_exn x = 500%Z.
Proof.
  intros [H|[H|H]]; subst; reflexivity.
Qed.

(** Every upload ends in one of three ways: the file is refused and
    nothing changes; the table is read but its labels, a row or the
    commit raises, and the store is as before; or every row is written. *)
Lemma upload_outcome (file : UploadFile) (app : App) :
  (exists x,
      load_frame file = Raise x /\ POST_upload file app = (Raise x, app))
  \/
  (exists df x app',
      load_frame file = Ok df /\
      POST_upload file app = (Raise x, app') /\
      store app' = store app /\
      status_of_exn x = 500%Z /\
      acceptable app df = false)
  \/
  (exists df rs,
      load_frame file = Ok df /\
      POST_upload file app
        = (Ok {| status := "success"; rows_inserted := len df |},
           {| store := store app ++ rs;
              draws := (draws app + len df)%nat |}) /\
      List.length rs = len df /\
      Forall2 (fun p r => written (fst p) (snd p) r)
              (combine (seq (draws app) (len df)) (rows_of df)) rs /\
      ids rs = new_ids (draws app) (len df) /\
      keys rs = new_keys (rows_of df) /\
      acceptable app df = true /\
      fresh_for (ids (store app)) (ids rs) = true /\
      fresh_for (keys (store app)) (keys rs) = true).
Proof.
  destruct (load_frame file) as [df|x] eqn:L.
  2:{ left. exists x. split; [reflexivity|apply upload_refused; exact L]. }
  right. unfold acceptable.
  destruct (is_ok (stripped df)) eqn:K.
  2:{ left. exists df, AttributeError, app.
      rewrite (upload_labels_refused file app L K), K. repeat split. }
  pose proof (stage_all_convertible (rows_of df) (draws app)) as C.
  destruct (stage_all (draws app) (rows_of df)) as [news|x] eqn:S;
    simpl in C.
  2:{ left. destruct (upload_loop_fails file app L S) as [app' [P T]].
      exists df, x, app'. rewrite K, <- C. repeat split; try assumption.
      apply status_of_loop_error. exact (stage_all_raises _ _ S). }
  pose proof (insert_all_bindable _ _ S) as B.
  rewrite (upload_commits file app L K S).
  destruct (comprehension insert_row news) as [rs|y] eqn:I; simpl in B.
  - pose proof (written_all _ _ S I) as W.
    destruct (written_ids_keys _ _ W) as [Hi Hk].
    rewrite (rows_of_length df K) in Hi, W.
    rewrite (flush_value _ (store app) I), Hi, Hk.
    destruct (fresh_for (ids (store app)) (new_ids (draws app) (len df)))
      eqn:Fi;
      destruct (fresh_for (keys (store app)) (new_keys (rows_of df)))
        eqn:Fk; cbn [andb];
      try (left; exists df; eexists; eexists;
           rewrite K, <- C, <- B, Fi, Fk;
           repeat split; reflexivity).
    right. exists df, rs. rewrite Hi, Hk, K, <- C, <- B, Fi, Fk.
    repeat split; try assumption.
    rewrite (comprehension_length _ _ I), (stage_all_length _ _ S).
    apply rows_of_length. exact K.
  - left. destruct (flush (store app) news) as [t'|x] eqn:F.
    + destruct (flush_appends _ _ F) as [rows [I' _]]. congruence.
    + exists df. eexists. eexists. rewrite K, <- C, <- B.
      repeat split.
      apply status_of_flush_error. exact (flush_raises _ _ F).
Qed.

(** The store after an upload is the store before it, followed by what
    the upload wrote, if anything. *)
Lemma upload_appends (file : UploadFile) (app : App) :
  exists rs,
    store (snd (POST_upload file app)) = store app ++ rs /\
    fresh_for (ids (store app)) (ids rs) = true /\
    fresh_for (keys (store app)) (keys rs) = true /\
    Forall unfilled rs.
Proof.
  destruct (upload_outcome file app)
    as [[x [_ P]]|[[df [x [app' [_ [P [T _]]]]]]|[df [rs H]]]].
  - exists []. rewrite P, app_nil_r. repeat split. constructor.
  - exists []. rewrite P, app_nil_r. simpl. repeat split;
      [exact T|constructor].
  - destruct H as [_ [P [_ [W [_ [_ [_ [Fi Fk]]]]]]]].
    exists rs. rewrite P. simpl. repeat split; try assumption.
    clear - W. induction W as [|p r ps rs' Wr _ IH]; constructor;
      [|exact IH].
    unfold written in Wr. unfold unfilled. tauto.
Qed.

(** What the two readers answer depends on the store alone. *)
Lemma readers_of_store (app app' : App) :
  store app' = store app ->
  fst (GET_kpis app') = fst (GET_kpis app) /\
  fst (GET_employees app') = fst (GET_employees app).
Proof.
  intros E. rewrite !GET_kpis_value, !GET_employees_value. simpl.
  rewrite E. split; reflexivity.
Qed.

End Upload.

(* ================================================================= *)
(** ** POST /api/etl/upload: refusals                                 *)
(* ================================================================= *)

(** C4: a file whose name ends with neither .csv nor .xlsx is refused
    with status 400, whatever its content: the exception the handler
    raises for it is caught by its own [except] and raised again with the
    same status and the detail "File error: " followed by its text; the
    application is left as it was. *)
Theorem upload_unsupported_suffix {R : Runtime}
    (file : UploadFile) (app : App) :
  endswith (filename file) ".csv" = false ->
  endswith (filename file) ".xlsx" = false ->
  POST_upload file app
    = (Raise (HTTPException 400
                ("File error: "
                 ++ str_exn (HTTPException 400 "Upload CSV or XLSX only"))
                %string),
       app)
  /\ status_of (fst (POST_upload file app)) = 400%Z.
Proof.
  intros C X.
  assert (E : POST_upload file app
              = (Raise (HTTPException 400
                          ("File error: "
                           ++ str_exn (HTTPException 400
                                         "Upload CSV or XLSX only"))
                          %string), app)).
  { apply upload_refused. unfold load_frame, read_frame.
    rewrite C, X. reflexivity. }
  rewrite E. split; reflexivity.
Qed.

Lemma upload_unsupported_suffix_witness :
  endswith (filename Samples.data_txt) ".csv" = false /\
  endswith (filename Samples.data_txt) ".xlsx" = false /\
  POST_upload Samples.data_txt empty_app
    = (Raise (HTTPException 400
                ("File error: "
                 ++ str_exn (HTTPException 400 "Upload CSV or XLSX only"))
                %string),
       empty_app) /\
  status_of (fst (POST_upload Samples.data_txt empty_app)) = 400%Z.
Proof.
  assert (C : endswith (filename Samples.data_txt) ".csv" = false)
    by reflexivity.
  assert (X : endswith (filename Samples.data_txt) ".xlsx" = false)
    by reflexivity.
  exact (conj C (conj X
           (upload_unsupported_suffix Samples.data_txt empty_app C X))).
Defined.

(** The response to [data.txt], spelled out. *)
Example upload_data_txt :
  POST_upload Samples.data_txt empty_app
  = (Raise (HTTPException 400 "File error: 400: Upload CSV or XLSX only"),
     empty_app).
Proof.
  reflexivity.
Qed.

(** C5: a file with an accepted suffix whose content the codec or the
    reader rejects is refused with status 400, and the detail of the
    response ends with the text of the exception they raised. *)
Theorem upload_parse_failure {R : Runtime}
    (file : UploadFile) (app : App) (e : exn) :
  parse_failure file e ->
  POST_upload file app
    = (Raise (HTTPException 400 ("File error: " ++ str_exn e)%string), app)
  /\ status_of (fst (POST_upload file app)) = 400%Z.
Proof.
  intros P.
  assert (E : POST_upload file app
              = (Raise (HTTPException 400
                          ("File error: " ++ str_exn e)%string), app)).
  { apply upload_refused. unfold load_frame, read_frame.
    destruct P as [C D|text C D T|C X T].
    - rewrite C, D. reflexivity.
    - rewrite C, D. simpl. rewrite T. reflexivity.
    - rewrite C, X, T. reflexivity. }
  rewrite E. split; reflexivity.
Qed.

Lemma upload_parse_failure_witness :
  parse_failure Samples.latin1
    (LibraryError "'utf-8' codec can't decode byte in position 2") /\
  POST_upload Samples.latin1 empty_app
    = (Raise (HTTPException 400
                "File error: 'utf-8' codec can't decode byte in position 2"),
       empty_app) /\
  status_of (fst (POST_upload Samples.latin1 empty_app)) = 400%Z.
Proof.
  assert (P : parse_failure Samples.latin1
                (LibraryError
                   "'utf-8' codec can't decode byte in position 2"))
    by (apply csv_not_utf8; reflexivity).
  exact (conj P (upload_parse_failure empty_app P)).
Defined.

(* ================================================================= *)
(** ** POST /api/etl/upload: what is committed                        *)
(* ================================================================= *)

(** C6: an upload either commits one record per parsed row, appended to
    the store in the order of the rows, each record being what its row
    and the identifier drawn for it give, and reports their number; or it
    raises and leaves the store exactly as it was, so that the two readers
    answer what they answered before. *)
Theorem upload_all_or_nothing {R : Runtime}
    (file : UploadFile) (app : App) :
  (exists df news,
      load_frame file = Ok df /\
      POST_upload file app
        = (Ok {| status := "success"; rows_inserted := len df |},
           {| store := store app ++ news;
              draws := (draws app + len df)%nat |}) /\
      List.length news = len df /\
      List.length (rows_of df) = len df /\
      Forall2 (fun p r => written (fst p) (snd p) r)
              (combine (seq (draws app) (len df)) (rows_of df)) news)
  \/
  (exists x app',
      POST_upload file app = (Raise x, app') /\
      store app' = store app /\
      fst (GET_kpis app') = fst (GET_kpis app) /\
      fst (GET_employees app') = fst (GET_employees app)).
Proof.
  destruct (upload_outcome file app)
    as [[x [_ P]]|[[df [x [app' [_ [P [T _]]]]]]|[df [rs H]]]].
  - right. exists x, app. split; [exact P|]. split; [reflexivity|].
    split; reflexivity.
  - right. exists x, app'. split; [exact P|]. split; [exact T|].
    apply readers_of_store. exact T.
  - left. destruct H as [L [P [N [W [_ [_ [A _]]]]]]].
    exists df, rs. repeat split; try assumption.
    apply rows_of_length. unfold acceptable in A.
    destruct (is_ok (stripped df)); [reflexivity|discriminate].
Qed.




(** C10, as worded, fails: the two rows of the file have the business
    identifier E1, and the monthly income of the second is the text abc;
    the request fails in the loop, on [float], and never reaches the
    commit: what is raised is a [ValueError], not the violation of the
    constraint. *)
Lemma duplicate_without_commit_failure :
  load_frame Samples.twice_then_not_a_number
    = Ok (Samples.frame Samples.twice_then_not_a_number) /\
  fresh_for (keys (store empty_app))
    (new_keys (rows_of (Samples.frame Samples.twice_then_not_a_number)))
    = false /\
  stage_all (draws empty_app)
    (rows_of (Samples.frame Samples.twice_then_not_a_number))
    = Raise ValueError /\
  POST_upload Samples.twice_then_not_a_number empty_app
    = (Raise ValueError, {| store := []; draws := 2 |}) /\
  fst (POST_upload Samples.twice_then_not_a_number empty_app)
    <> Raise IntegrityError.
Proof.
  repeat split; try (vm_compute; reflexivity).
  vm_compute. discriminate.
Qed.

(** C10, amended: when the file parses and a non-null business identifier
    of one of its rows is that of another of its rows or of a stored
    record, the request raises an error that is answered with status 500
    and the store is left as it was.  The error comes from the commit
    whenever the loop reaches it, that is when [float] accepts the monthly
    income of every row, and it is the constraint violation when every
    value can be bound; otherwise it is the error of [float], raised
    before any commit. *)
Theorem upload_duplicate_employee_id {R : Runtime}
    (file : UploadFile) (app : App) (df : DataFrame) :
  load_frame file = Ok df ->
  fresh_for (keys (store app)) (new_keys (rows_of df)) = false ->
  exists x app',
    POST_upload file app = (Raise x, app') /\
    status_of_exn x = 500%Z /\
    store app' = store app /\
    if forallb convertible (rows_of df)
    then if forallb bindable (rows_of df)
         then x = IntegrityError
         else x = IntegrityError \/ x = OverflowError \/ x = InterfaceError
    else x = ValueError \/ x = TypeError \/ x = OverflowError.
Proof.
  intros L D.
  assert (K : is_ok (stripped df) = true).
  { apply rows_of_nonempty. intros E. rewrite E in D. discriminate. }
  pose proof (stage_all_convertible (rows_of df) (draws app)) as C.
  destruct (stage_all (draws app) (rows_of df)) as [news|x] eqn:S;
    simpl in C; rewrite <- C.
  - pose proof (insert_all_bindable _ _ S) as B.
    rewrite (upload_commits file app L K S).
    destruct (comprehension insert_row news) as [rs|y] eqn:I;
      simpl in B; rewrite <- B.
    + destruct (written_ids_keys _ _ (written_all _ _ S I)) as [_ Hk].
      rewrite (flush_value _ (store app) I), Hk, D, andb_false_r.
      eexists. eexists. repeat split.
    + destruct (flush (store app) news) as [t'|x] eqn:F.
      * destruct (flush_appends _ _ F) as [rows [I' _]]. congruence.
      * pose proof (flush_raises _ _ F) as X.
        eexists. eexists. split; [reflexivity|].
        split; [apply status_of_flush_error; exact X|].
        split; [reflexivity|exact X].
  - destruct (upload_loop_fails file app L S) as [app' [P T]].
    pose proof (stage_all_raises _ _ S) as X.
    exists x, app'. split; [exact P|].
    split; [apply status_of_loop_error; exact X|].
    split; [exact T|exact X].
Qed.

Lemma upload_duplicate_employee_id_witness :
  load_frame Samples.twice = Ok (Samples.frame Samples.twice) /\
  fresh_for (keys (store empty_app))
    (new_keys (rows_of (Samples.frame Samples.twice))) = false /\
  exists x app',
    POST_upload Samples.twice empty_app = (Raise x, app') /\
    status_of_exn x = 500%Z /\
    store app' = store empty_app /\
    if forallb convertible (rows_of (Samples.frame Samples.twice))
    then if forallb bindable (rows_of (Samples.frame Samples.twice))
         then x = IntegrityError
         else x = IntegrityError \/ x = OverflowError \/ x = InterfaceError
    else x = ValueError \/ x = TypeError \/ x = OverflowError.
Proof.
  assert (L : load_frame Samples.twice = Ok (Samples.frame Samples.twice))
    by (vm_compute; reflexivity).
  assert (D : fresh_for (keys (store empty_app))
                (new_keys (rows_of (Samples.frame Samples.twice))) = false)
    by (vm_compute; reflexivity).
  exact (conj L (conj D
           (upload_duplicate_employee_id Samples.twice empty_app L D))).
Defined.

(** The same against the store: the roster uploaded a second time. *)
Example upload_roster_twice :
  fst (POST_upload Samples.roster (Samples.after Samples.roster))
    = Raise IntegrityError /\
  store (snd (POST_upload Samples.roster (Samples.after Samples.roster)))
    = store (Samples.after Samples.roster).
Proof.
  split; vm_compute; reflexivity.
Qed.

(* ================================================================= *)
(** ** POST /api/etl/upload: the monthly income                       *)
(* ================================================================= *)

Lemma labelled_spec (key : string) (l : pyval) :
  labelled key l = true <-> l = PyStr key.
Proof.
  destruct l as [| z | z | f | s |]; simpl;
    try (split; intros H; discriminate).
  rewrite String.eqb_eq. split; intros H; congruence.
Qed.

Lemma hits_absent (key : string) (idx : list pyval) :
  forall vals : list pyval,
    ~ In (PyStr key) idx -> hits {| index := idx; values := vals |} key = [].
Proof.
  unfold hits. simpl.
  induction idx as [|a idx IH]; intros vals N; [reflexivity|].
  destruct vals as [|v vals]; [reflexivity|]. simpl.
  destruct (labelled key a) eqn:E.
  - apply labelled_spec in E. exfalso. apply N. left. exact E.
  - apply IH. intros I. apply N. right. exact I.
Qed.

(** [row.get(key, default)] is the default when no column has the label. *)
Lemma get_absent (row : Series) (key : string) (default : pyval) :
  ~ In (PyStr key) (index row) -> get row key default = default.
Proof.
  intros N. unfold get. destruct row as [idx vals].
  rewrite (@hits_absent key idx vals N). reflexivity.
Qed.

Section Income.
Context {R : Runtime}.

(** When [float] gives the same value on every row, that value, bound, is
    the monthly income of every record written. *)
Lemma written_incomes (f0 : pyfloat) (ps : list (nat * Series)) :
  forall rs : list Employee,
    Forall2 (fun p r => written (fst p) (snd p) r) ps rs ->
    Forall (fun p => py_float (get (snd p) "MonthlyIncome" (PyInt 0))
                     = Ok f0) ps ->
    Forall (fun r => monthly_income r = bind_real f0) rs.
Proof.
  intros rs W. induction W as [|p r ps rs Wr _ IH]; intros F;
    constructor; inversion F as [|? ? F1 F2]; subst.
  - destruct Wr as [_ [_ [_ [_ [[f [Pf Mf]] _]]]]].
    rewrite Mf. congruence.
  - apply IH. exact F2.
Qed.

Lemma missing_income_is_zero (df : DataFrame) :
  ~ In (PyStr "MonthlyIncome") (labels_of df) ->
  Forall (fun row => py_float (get row "MonthlyIncome" (PyInt 0))
                     = Ok (FFin 0))
         (rows_of df).
Proof.
  intros N. apply Forall_forall. intros row I.
  rewrite get_absent; [reflexivity|].
  rewrite (rows_of_index df row I). exact N.
Qed.

Lemma Forall_snd_combine {A B} (P : B -> Prop) (xs : list A) (ys : list B) :
  Forall P ys -> Forall (fun p => P (snd p)) (combine xs ys).
Proof.
  intros F. apply Forall_forall. intros [a b] I.
  apply in_combine_r in I. rewrite Forall_forall in F. exact (F b I).
Qed.

End Income.

(** C3, as worded, fails: a row whose MonthlyIncome is the text abc does
    not get a monthly income of 0; the request raises, is answered with
    status 500, and nothing is stored. *)
Lemma unparsable_income_is_an_error :
  exists row,
    In row (rows_of (Samples.frame Samples.not_a_number)) /\
    get row "MonthlyIncome" (PyInt 0) = PyStr "abc" /\
    float_of_str "abc" = None /\
    POST_upload Samples.not_a_number empty_app
      = (Raise ValueError, {| store := []; draws := 1 |}) /\
    status_of_exn ValueError = 500%Z.
Proof.
  eexists. split; [vm_compute; left; reflexivity|].
  repeat split; vm_compute; reflexivity.
Qed.

(** C3, amended: for a file that parses, when no column is labelled
    MonthlyIncome [float] receives the default 0 on every row, never
    raises, and every record the upload stores has monthly income 0.0;
    when a row holds in that column a text [float] cannot parse, the
    request raises instead, is answered with status 500, and no record of
    the upload is stored. *)
Theorem monthly_income_default_or_error {R : Runtime}
    (file : UploadFile) (app : App) (df : DataFrame) :
  load_frame file = Ok df ->
  (~ In (PyStr "MonthlyIncome") (labels_of df) ->
   forallb convertible (rows_of df) = true /\
   forall res app',
     POST_upload file app = (Ok res, app') ->
     exists news,
       store app' = store app ++ news /\
       List.length news = len df /\
       Forall (fun e => monthly_income e = Some (FFin 0)) news)
  /\
  (forall row s,
     In row (rows_of df) ->
     get row "MonthlyIncome" (PyInt 0) = PyStr s ->
     float_of_str s = None ->
     exists x app',
       POST_upload file app = (Raise x, app') /\
       status_of_exn x = 500%Z /\
       store app' = store app).
Proof.
  intros L. split.
  - intros N. pose proof (missing_income_is_zero df N) as Z.
    assert (C : forallb convertible (rows_of df) = true).
    { apply forallb_forall. intros row I. unfold convertible.
      rewrite Forall_forall in Z. rewrite (Z row I). reflexivity. }
    split; [exact C|]. intros res app' P.
    destruct (upload_outcome file app)
      as [[x [L' _]]|[[df' [x [a [_ [P' _]]]]]|[df' [rs H]]]];
      try congruence.
    destruct H as [L' [P' [Hn [W _]]]].
    assert (df' = df) by congruence. subst df'.
    rewrite P in P'. inversion P'; subst.
    exists rs. split; [reflexivity|]. split; [exact Hn|].
    apply (written_incomes (f0 := FFin 0) W).
    apply Forall_snd_combine with
      (P := fun row => py_float (get row "MonthlyIncome" (PyInt 0))
                       = Ok (FFin 0)).
    exact Z.
  - intros row s I G U.
    pose proof (stage_all_convertible (rows_of df) (draws app)) as C.
    destruct (stage_all (draws app) (rows_of df)) as [news|x] eqn:S.
    + simpl in C. symmetry in C. rewrite forallb_forall in C.
      specialize (C row I). unfold convertible in C.
      rewrite G in C. simpl in C. rewrite U in C. discriminate.
    + destruct (upload_loop_fails file app L S) as [app' [P T]].
      exists x, app'. split; [exact P|].
      split; [|exact T].
      apply status_of_loop_error. exact (stage_all_raises _ _ S).
Qed.

Lemma monthly_income_default_or_error_witness :
  (load_frame Samples.no_income = Ok (Samples.frame Samples.no_income) /\
   ~ In (PyStr "MonthlyIncome")
        (labels_of (Samples.frame Samples.no_income)) /\
   exists news,
     store (Samples.after Samples.no_income) = store empty_app ++ news /\
     List.length news = len (Samples.frame Samples.no_income) /\
     Forall (fun e => monthly_income e = Some (FFin 0)) news)
  /\
  (load_frame Samples.not_a_number
     = Ok (Samples.frame Samples.not_a_number) /\
   exists x app',
     POST_upload Samples.not_a_number empty_app = (Raise x, app') /\
     status_of_exn x = 500%Z /\
     store app' = store empty_app).
Proof.
  split.
  - assert (L : load_frame Samples.no_income
                = Ok (Samples.frame Samples.no_income))
      by (vm_compute; reflexivity).
    assert (N : ~ In (PyStr "MonthlyIncome")
                     (labels_of (Samples.frame Samples.no_income))).
    { vm_compute. intros [H|[H|[H|[]]]]; discriminate. }
    split; [exact L|]. split; [exact N|].
    destruct (monthly_income_default_or_error
                Samples.no_income empty_app L) as [A _].
    destruct (A N) as [_ K].
    apply (K {| status := "success"; rows_inserted := 1 |}
             (Samples.after Samples.no_income)).
    vm_compute. reflexivity.
  - assert (L : load_frame Samples.not_a_number
                = Ok (Samples.frame Samples.not_a_number))
      by (vm_compute; reflexivity).
    split; [exact L|].
    destruct (monthly_income_default_or_error
                Samples.not_a_number empty_app L) as [_ B].
    apply (B {| index := [PyStr "EmployeeID"; PyStr "Name";
                          PyStr "Department"; PyStr "MonthlyIncome"];
                values := [PyStr "E1"; PyStr "Alice"; PyStr "Eng";
                           PyStr "abc"] |}
             "abc").
    + vm_compute. left. reflexivity.
    + vm_compute. reflexivity.
    + vm_compute. reflexivity.
Defined.

(** The example of the specification: one row is inserted, and the
    listing then has one entry, with monthly income 5000.0. *)
Example upload_roster_then_list :
  POST_upload Samples.roster empty_app
    = (Ok {| status := "success"; rows_inserted := 1 |},
       Samples.after Samples.roster) /\
  fst (GET_employees (Samples.after Samples.roster))
    = Ok [{| EmployeeResponse.id := uuid4 0;
             EmployeeResponse.employee_id := "E1";
             EmployeeResponse.name := "Alice";
             EmployeeResponse.department := "Eng";
             EmployeeResponse.monthly_income := FFin (5000 # 1) |}].
Proof.
  split; vm_compute; reflexivity.
Qed.

(** What the upload of the example stores. *)
Example upload_roster_store :
  store (Samples.after Samples.roster) = [Samples.alice].
Proof.
  vm_compute. reflexivity.
Qed.

(** A business identifier that is a whole number, in a table that also
    has text, reaches the driver as an [int] and is stored as its
    decimal text. *)
Example upload_numbered :
  map public_view (store (Samples.after Samples.numbered))
  = [(uuid4 0, Some (SText "101"), Some (SText "Alice"), Some (SText "Eng"),
      Some (FFin (5000 # 1)))].
Proof.
  vm_compute. reflexivity.
Qed.

(** Two columns that are both MonthlyIncome once stripped: [row.get]
    returns a [Series], [float] raises a [TypeError], nothing is
    stored. *)
Example upload_income_twice :
  POST_upload Samples.income_twice empty_app
  = (Raise TypeError, {| store := []; draws := 1 |}).
Proof.
  vm_compute. reflexivity.
Qed.

(** A row that is empty in every column is stored all the same, with
    NULL everywhere but in its identifier. *)
Example upload_blank_row :
  map public_view (store (Samples.after Samples.roster_with_blank))
  = [(uuid4 0, Some (SText "E1"), Some (SText "Alice"), Some (SText "Eng"),
      Some (FFin (5000 # 1)));
     (uuid4 1, None, None, None, None)].
Proof.
  vm_compute. reflexivity.
Qed.

(** A table of whole numbers only reaches the loop as [numpy.int64]
    cells: the business identifier is stored as the BLOB of its eight
    bytes. *)
Example upload_whole_numbers :
  map public_view (store (Samples.after Samples.whole_numbers))
  = [(uuid4 0, Some (SBlob (int64_bytes 101)), None, None,
      Some (FFin (5000 # 1)))].
Proof.
  vm_compute. reflexivity.
Qed.

(** A business identifier beyond 64 bits cannot be bound: the commit
    raises and nothing is stored. *)
Example upload_long_number :
  POST_upload Samples.long_number empty_app
  = (Raise OverflowError, {| store := []; draws := 1 |}).
Proof.
  vm_compute. reflexivity.
Qed.

(** Labels that are numbers are refused by the [str] accessor, outside
    the [try]: the request is answered with status 500. *)
Example strip_numeric_labels :
  stripped Samples.numeric_labels = Raise AttributeError /\
  status_of_exn AttributeError = 500%Z.
Proof.
  split; reflexivity.
Qed.

(* ================================================================= *)
(** ** What every sequence of requests keeps                          *)
(* ================================================================= *)

Section Sequences.
Context {R : Runtime}.

(** One request leaves the store as it was or appends to it, and what it
    appends respects the two constraints of the table. *)
Lemma serve_appends (rq : request) (app : App) :
  exists rs,
    store (serve rq app) = store app ++ rs /\
    fresh_for (ids (store app)) (ids rs) = true /\
    fresh_for (keys (store app)) (keys rs) = true /\
    Forall unfilled rs.
Proof.
  destruct rq as [| |file]; unfold serve.
  - exists []. rewrite GET_kpis_value, app_nil_r. repeat split. constructor.
  - exists []. rewrite GET_employees_value, app_nil_r. repeat split.
    constructor.
  - apply upload_appends.
Qed.

Lemma serve_all_appends (rqs : list request) :
  forall app : App,
    exists rs,
      store (serve_all rqs app) = store app ++ rs /\ Forall unfilled rs.
Proof.
  induction rqs as [|rq rqs IH]; intros app; simpl.
  - exists []. rewrite app_nil_r. split; [reflexivity|constructor].
  - destruct (serve_appends rq app) as [rs1 [E1 [_ [_ U1]]]].
    destruct (IH (serve rq app)) as [rs2 [E2 U2]].
    exists (rs1 ++ rs2). fold (serve_all rqs (serve rq app)).
    rewrite E2, E1, app_assoc. split; [reflexivity|].
    apply Forall_app. split; assumption.
Qed.

Lemma serve_keeps_unique (rq : request) (app : App) :
  distinct (ids (store app)) = true ->
  distinct (keys (store app)) = true ->
  distinct (ids (store (serve rq app))) = true /\
  distinct (keys (store (serve rq app))) = true.
Proof.
  intros Di Dk.
  destruct (serve_appends rq app) as [rs [E [Fi [Fk _]]]].
  rewrite E, ids_app, keys_app.
  split.
  - apply (distinct_app_fresh same_string_eq); assumption.
  - apply (distinct_app_fresh same_sqltext_eq); assumption.
Qed.

End Sequences.

(** X1: whatever requests are served, in whatever order and whether they
    succeed or fail, the primary keys of the store stay pairwise distinct
    and so do its non-null business identifiers. *)
Theorem identifiers_stay_unique {R : Runtime}
    (rqs : list request) (app : App) :
  NoDup (ids (store app)) ->
  NoDup (keys (store app)) ->
  NoDup (ids (store (serve_all rqs app))) /\
  NoDup (keys (store (serve_all rqs app))).
Proof.
  revert app. induction rqs as [|rq rqs IH]; intros app Ni Nk; simpl.
  - split; assumption.
  - apply (distinct_NoDup same_string_eq) in Ni.
    apply (distinct_NoDup same_sqltext_eq) in Nk.
    destruct (serve_keeps_unique rq app Ni Nk) as [Di Dk].
    apply IH.
    + apply (distinct_NoDup same_string_eq). exact Di.
    + apply (distinct_NoDup same_sqltext_eq). exact Dk.
Qed.

Lemma identifiers_stay_unique_witness :
  NoDup (ids (store empty_app)) /\
  NoDup (keys (store empty_app)) /\
  NoDup (ids (store (serve_all
                       [PostUpload Samples.roster; GetEmployees;
                        PostUpload Samples.twice;
                        PostUpload Samples.anonymous]
                       empty_app))) /\
  NoDup (keys (store (serve_all
                        [PostUpload Samples.roster; GetEmployees;
                         PostUpload Samples.twice;
                         PostUpload Samples.anonymous]
                        empty_app))).
Proof.
  assert (Ni : NoDup (ids (store empty_app))) by constructor.
  assert (Nk : NoDup (keys (store empty_app))) by constructor.
  exact (conj Ni (conj Nk
           (identifiers_stay_unique
              [PostUpload Samples.roster; GetEmployees;
               PostUpload Samples.twice; PostUpload Samples.anonymous]
              empty_app Ni Nk))).
Defined.

(** X2: no request ever removes or changes a record: after any sequence
    of requests the store is what it was, followed by the records that
    were added. *)
Theorem store_only_grows {R : Runtime} (rqs : list request) (app : App) :
  exists rs, store (serve_all rqs app) = store app ++ rs.
Proof.
  destruct (serve_all_appends rqs app) as [rs [E _]].
  exists rs. exact E.
Qed.

(** X3: in a store filled through the API alone, every record has NULL
    age, gender, job role, tenure and performance rating, and false
    overtime and attrition flags, whatever columns the files had. *)
Theorem uploads_never_fill_demographics {R : Runtime}
    (rqs : list request) :
  Forall unfilled (store (serve_all rqs empty_app)).
Proof.
  destruct (serve_all_appends rqs empty_app) as [rs [E U]].
  rewrite E. exact U.
Qed.

(** X4: an upload that succeeds appends one record per row, in the order
    of the rows: the i-th record has the i-th identifier drawn, the row's
    EmployeeID, Name and Department as the driver binds them (text for a
    string, the decimal text of an [int] or of a float, the BLOB of a
    [numpy.int64], NULL for [None] and NaN), and the row's MonthlyIncome
    as [float] reads it. *)
Theorem upload_writes_rows_in_order {R : Runtime}
    (file : UploadFile) (app app' : App) (df : DataFrame)
    (res : UploadResult) :
  load_frame file = Ok df ->
  POST_upload file app = (Ok res, app') ->
  exists rs,
    store app' = store app ++ rs /\
    List.length rs = len df /\
    List.length (rows_of df) = len df /\
    Forall2 (fun p r => written (fst p) (snd p) r)
            (combine (seq (draws app) (len df)) (rows_of df)) rs.
Proof.
  intros L P.
  destruct (upload_outcome file app)
    as [[x [L' _]]|[[df' [x [a [_ [P' _]]]]]|[df' [rs H]]]];
    try congruence.
  destruct H as [L' [P' [N [W [_ [_ [A _]]]]]]].
  assert (df' = df) by congruence. subst df'.
  exists rs. split; [|split; [exact N|split; [|exact W]]].
  - rewrite P in P'. inversion P'. reflexivity.
  - apply rows_of_length. unfold acceptable in A.
    destruct (is_ok (stripped df)); [reflexivity|discriminate].
Qed.

Lemma upload_writes_rows_in_order_witness :
  load_frame Samples.whole_numbers
    = Ok (Samples.frame Samples.whole_numbers) /\
  POST_upload Samples.whole_numbers (Samples.after Samples.roster)
    = (Ok {| status := "success"; rows_inserted := 1 |},
       Samples.after_both Samples.roster Samples.whole_numbers) /\
  exists rs,
    store (Samples.after_both Samples.roster Samples.whole_numbers)
      = store (Samples.after Samples.roster) ++ rs /\
    List.length rs = len (Samples.frame Samples.whole_numbers) /\
    List.length (rows_of (Samples.frame Samples.whole_numbers))
      = len (Samples.frame Samples.whole_numbers) /\
    Forall2 (fun p r => written (fst p) (snd p) r)
            (combine (seq (draws (Samples.after Samples.roster))
                          (len (Samples.frame Samples.whole_numbers)))
                     (rows_of (Samples.frame Samples.whole_numbers))) rs.
Proof.
  assert (L : load_frame Samples.whole_numbers
              = Ok (Samples.frame Samples.whole_numbers))
    by (vm_compute; reflexivity).
  assert (P : POST_upload Samples.whole_numbers (Samples.after Samples.roster)
              = (Ok {| status := "success"; rows_inserted := 1 |},
                 Samples.after_both Samples.roster Samples.whole_numbers))
    by (vm_compute; reflexivity).
  exact (conj L (conj P (upload_writes_rows_in_order _ _ L P))).
Defined.

(* ================================================================= *)
(** ** More on GET /api/kpis                                          *)
(* ================================================================= *)

Section MoreKpis.
Context {R : Runtime}.

Lemma incomes_snoc_null (t : list Employee) (e : Employee) :
  monthly_income e = None -> incomes (t ++ [e]) = incomes t.
Proof.
  intros N. unfold incomes. rewrite map_app, somes_app. simpl.
  rewrite N. apply app_nil_r.
Qed.

Lemma payroll_snoc_null (t : list Employee) (e : Employee) :
  monthly_income e = None -> payroll (t ++ [e]) = payroll t.
Proof.
  intros N. unfold payroll, sum_monthly_income.
  rewrite (@incomes_snoc_null t e N). reflexivity.
Qed.

Lemma headcount_snoc (t : list Employee) (e : Employee) :
  headcount (t ++ [e]) = (headcount t + 1)%Z.
Proof.
  unfold headcount. rewrite length_app. simpl. lia.
Qed.

End MoreKpis.

(** X7: a record whose monthly income is NULL counts as an employee and
    adds nothing to the payroll: with it the count is one more and the
    total is the same, and the average is the same payroll divided by
    the larger count. *)
Theorem kpis_count_null_incomes {R : Runtime}
    (t : list Employee) (e : Employee) (n m : nat) :
  monthly_income e = None ->
  exists k k',
    GET_kpis {| store := t; draws := n |}
      = (Ok k, {| store := t; draws := n |}) /\
    GET_kpis {| store := t ++ [e]; draws := m |}
      = (Ok k', {| store := t ++ [e]; draws := m |}) /\
    KPIResponse.total_employees k'
      = (KPIResponse.total_employees k + 1)%Z /\
    KPIResponse.total_payroll_cost k' = KPIResponse.total_payroll_cost k /\
    KPIResponse.avg_salary k'
      = round_float
          (float_div (payroll t) (float_of_int (headcount t + 1))) 2.
Proof.
  intros N. eexists. eexists.
  split; [apply GET_kpis_value|]. split; [apply GET_kpis_value|].
  cbn [KPIResponse.total_employees KPIResponse.total_payroll_cost
       KPIResponse.avg_salary store].
  split; [apply headcount_snoc|].
  split; [rewrite (@payroll_snoc_null _ t e N); reflexivity|].
  unfold mean_income.
  rewrite headcount_snoc, (@payroll_snoc_null _ t e N).
  destruct (headcount t + 1 =? 0)%Z eqn:E; [|reflexivity].
  apply Z.eqb_eq in E. unfold headcount in E. lia.
Qed.

Lemma kpis_count_null_incomes_witness :
  monthly_income (Samples.bare "x" None) = None /\
  exists k k',
    GET_kpis {| store := store (Samples.after Samples.roster); draws := 1 |}
      = (Ok k, {| store := store (Samples.after Samples.roster);
                  draws := 1 |}) /\
    GET_kpis {| store := store (Samples.after Samples.roster)
                         ++ [Samples.bare "x" None];
                draws := 1 |}
      = (Ok k', {| store := store (Samples.after Samples.roster)
                            ++ [Samples.bare "x" None];
                   draws := 1 |}) /\
    KPIResponse.total_employees k'
      = (KPIResponse.total_employees k + 1)%Z /\
    KPIResponse.total_payroll_cost k' = KPIResponse.total_payroll_cost k /\
    KPIResponse.avg_salary k'
      = round_float
          (float_div (payroll (store (Samples.after Samples.roster)))
                     (float_of_int
                        (headcount (store (Samples.after Samples.roster))
                         + 1))) 2.
Proof.
  assert (N : monthly_income (Samples.bare "x" None) = None)
    by reflexivity.
  exact (conj N (kpis_count_null_incomes
                   (store (Samples.after Samples.roster))
                   (Samples.bare "x" None) 1%nat 1%nat N)).
Defined.

(** The KPIs after the two rosters: three employees, a payroll of
    12300.5 and the double nearest to 4100.17 as the average. *)
Example kpis_after_two_rosters :
  fst (GET_kpis (Samples.after_both Samples.roster Samples.second_roster))
  = Ok {| KPIResponse.total_employees := 3;
          KPIResponse.total_payroll_cost := FFin (24601 # 2);
          KPIResponse.avg_salary := nearest_double (410017 # 100) |}.
Proof.
  vm_compute. reflexivity.
Qed.

(** Incomes of 1e16, 1 and 1: the sum of the database, taken in binary64
    in the order of the rows, is 1e16, two less than the sum of the three
    numbers, and the average is 3333333333333333.5. *)
Example kpis_of_large_incomes :
  fst (GET_kpis (Samples.after Samples.large_incomes))
  = Ok {| KPIResponse.total_employees := 3;
          KPIResponse.total_payroll_cost := FFin (10000000000000000 # 1);
          KPIResponse.avg_salary := FFin (6666666666666667 # 2) |}.
Proof.
  vm_compute. reflexivity.
Qed.

(* ================================================================= *)
(** ** Uploads as the other endpoints see them                        *)
(* ================================================================= *)

(** X8: after an upload that succeeds, the employee count of the KPIs is
    the count before it plus the number of rows the upload reported. *)
Theorem kpis_count_after_upload {R : Runtime}
    (file : UploadFile) (app app' : App) (res : UploadResult) :
  POST_upload file app = (Ok res, app') ->
  exists k k',
    GET_kpis app = (Ok k, app) /\
    GET_kpis app' = (Ok k', app') /\
    KPIResponse.total_employees k'
      = (KPIResponse.total_employees k + Z.of_nat (rows_inserted res))%Z.
Proof.
  intros P. eexists. eexists.
  split; [apply GET_kpis_value|]. split; [apply GET_kpis_value|].
  cbn [KPIResponse.total_employees].
  destruct (upload_outcome file app)
    as [[x [_ P']]|[[df [x [a [_ [P' _]]]]]|[df [rs H]]]];
    try congruence.
  destruct H as [_ [P' [N _]]].
  rewrite P in P'. inversion P'. simpl.
  unfold headcount. rewrite length_app, N. lia.
Qed.

Lemma kpis_count_after_upload_witness :
  POST_upload Samples.roster_with_blank empty_app
    = (Ok {| status := "success"; rows_inserted := 2 |},
       Samples.after Samples.roster_with_blank) /\
  exists k k',
    GET_kpis empty_app = (Ok k, empty_app) /\
    GET_kpis (Samples.after Samples.roster_with_blank)
      = (Ok k', Samples.after Samples.roster_with_blank) /\
    KPIResponse.total_employees k'
      = (KPIResponse.total_employees k
         + Z.of_nat (rows_inserted
                       {| status := "success"; rows_inserted := 2 |}))%Z.
Proof.
  assert (P : POST_upload Samples.roster_with_blank empty_app
              = (Ok {| status := "success"; rows_inserted := 2 |},
                 Samples.after Samples.roster_with_blank))
    by (vm_compute; reflexivity).
  exact (conj P (kpis_count_after_upload _ _ P)).
Defined.

(** X9: an upload that raises is invisible to the readers: the KPIs and
    the listing answer after it exactly what they answered before. *)
Theorem failed_upload_is_invisible {R : Runtime}
    (file : UploadFile) (app app' : App) (x : exn) :
  POST_upload file app = (Raise x, app') ->
  fst (GET_kpis app') = fst (GET_kpis app) /\
  fst (GET_employees app') = fst (GET_employees app).
Proof.
  intros P. apply readers_of_store.
  destruct (upload_outcome file app)
    as [[y [_ P']]|[[df [y [a [_ [P' [T _]]]]]]|[df [rs [_ [P' _]]]]]];
    rewrite P in P'; inversion P'; subst; try reflexivity.
  exact T.
Qed.

Lemma failed_upload_is_invisible_witness :
  POST_upload Samples.twice (Samples.after Samples.roster)
    = (Raise IntegrityError,
       snd (POST_upload Samples.twice (Samples.after Samples.roster))) /\
  fst (GET_kpis
         (snd (POST_upload Samples.twice (Samples.after Samples.roster))))
    = fst (GET_kpis (Samples.after Samples.roster)) /\
  fst (GET_employees
         (snd (POST_upload Samples.twice (Samples.after Samples.roster))))
    = fst (GET_employees (Samples.after Samples.roster)).
Proof.
  assert (P : POST_upload Samples.twice (Samples.after Samples.roster)
              = (Raise IntegrityError,
                 snd (POST_upload Samples.twice
                        (Samples.after Samples.roster))))
    by (vm_compute; reflexivity).
  exact (conj P (failed_upload_is_invisible _ _ P)).
Defined.

(** X10: a listing that fails keeps failing: once GET /api/employees
    raises, it raises the validation error after every later sequence of
    requests, since no request repairs or removes a record. *)
Theorem listing_failure_is_permanent {R : Runtime}
    (app : App) (x : exn) (rqs : list request) :
  fst (GET_employees app) = Raise x ->
  GET_employees (serve_all rqs app)
    = (Raise ValidationError, serve_all rqs app) /\
  status_of (fst (GET_employees (serve_all rqs app))) = 500%Z.
Proof.
  intros F. rewrite GET_employees_value in F. simpl in F.
  assert (C : forallb listable (store app) = false).
  { destruct (forallb listable (store app)) eqn:C; [|reflexivity].
    destruct (listing_listable _ C) as [rs [E _]]. congruence. }
  destruct (serve_all_appends rqs app) as [rs [E _]].
  rewrite GET_employees_value,
    (listing_not_listable (store (serve_all rqs app))).
  - split; reflexivity.
  - rewrite E, forallb_app, C. reflexivity.
Qed.

Lemma listing_failure_is_permanent_witness :
  fst (GET_employees (Samples.after Samples.no_name))
    = Raise ValidationError /\
  GET_employees (serve_all [PostUpload Samples.thirds; GetKpis]
                           (Samples.after Samples.no_name))
    = (Raise ValidationError,
       serve_all [PostUpload Samples.thirds; GetKpis]
                 (Samples.after Samples.no_name)) /\
  status_of (fst (GET_employees
                    (serve_all [PostUpload Samples.thirds; GetKpis]
                               (Samples.after Samples.no_name))))
    = 500%Z.
Proof.
  assert (F : fst (GET_employees (Samples.after Samples.no_name))
              = Raise ValidationError)
    by (vm_compute; reflexivity).
  exact (conj F (listing_failure_is_permanent
                   (Samples.after Samples.no_name)
                   [PostUpload Samples.thirds; GetKpis] F)).
Defined.

(* ================================================================= *)
(** ** More on POST /api/etl/upload                                   *)
(* ================================================================= *)

Section MoreUpload.
Context {R : Runtime}.

(** Whatever the [try] raises leaves the handler as a 400. *)
Lemma load_frame_raises (file : UploadFile) (x : exn) :
  load_frame file = Raise x -> exists d, x = HTTPException 400 d.
Proof.
  unfold load_frame. destruct (read_frame file); [discriminate|].
  intros H. inversion H. eexists. reflexivity.
Qed.

Lemma missing_key_column (df : DataFrame) :
  ~ In (PyStr "EmployeeID") (labels_of df) ->
  new_keys (rows_of df) = [].
Proof.
  intros N. unfold new_keys.
  assert (G : forall row, In row (rows_of df) -> row_key row = None).
  { intros row I. unfold row_key. rewrite get_absent; [reflexivity|].
    rewrite (rows_of_index df row I). exact N. }
  induction (rows_of df) as [|row rows IH]; [reflexivity|]. simpl.
  rewrite (G row (or_introl eq_refl)). apply IH.
  intros r I. apply G. right. exact I.
Qed.

Lemma written_complete (n : nat) (row : Series) (r : Employee) :
  written n row r -> complete r = negb (incomplete_row row).
Proof.
  unfold written, complete, incomplete_row.
  intros [_ [E [N [D [[f [F M]] _]]]]].
  rewrite E, N, D, F, M.
  destruct (employee_id r), (name r), (department r), f; reflexivity.
Qed.

Lemma written_all_complete (ps : list (nat * Series)) (rs : list Employee) :
  Forall2 (fun p r => written (fst p) (snd p) r) ps rs ->
  forallb complete rs = negb (existsb incomplete_row (map snd ps)).
Proof.
  induction 1 as [|p r ps rs W _ IH]; simpl; [reflexivity|].
  rewrite IH, (written_complete W), negb_orb. reflexivity.
Qed.

(** A record written from a row is accepted by the listing exactly when
    pydantic reads the row's three text values and its income. *)
Lemma written_listable (n : nat) (row : Series) (r : Employee) :
  written n row r -> listable r = readable_row row.
Proof.
  unfold written, listable, readable_row, entry, new_EmployeeResponse.
  intros [_ [E [N [D [[f [F M]] _]]]]].
  rewrite E, N, D, F, M. cbn [rbind validate_str].
  destruct (validate_str (employee_id r)); cbn [rbind is_ok andb];
    [|reflexivity].
  destruct (validate_str (name r)); cbn [rbind is_ok andb]; [|reflexivity].
  destruct (validate_str (department r)); cbn [rbind is_ok andb];
    [|reflexivity].
  destruct (validate_float (bind_real f)); reflexivity.
Qed.

Lemma written_all_listable (ps : list (nat * Series)) (rs : list Employee) :
  Forall2 (fun p r => written (fst p) (snd p) r) ps rs ->
  forallb listable rs = forallb readable_row (map snd ps).
Proof.
  induction 1 as [|p r ps rs W _ IH]; simpl; [reflexivity|].
  rewrite IH, (written_listable W). reflexivity.
Qed.

Lemma snd_combine_seq (n : nat) (rows : list Series) :
  map snd (combine (seq n (List.length rows)) rows) = rows.
Proof.
  revert n. induction rows as [|row rows IH]; intros n; simpl;
    [reflexivity|].
  rewrite IH. reflexivity.
Qed.

End MoreUpload.

(** X11: a file that was uploaded with success and has a row with a
    non-null business identifier cannot be uploaded again: the second
    request raises, is answered with status 500 and stores nothing. *)
Theorem upload_is_not_repeatable {R : Runtime}
    (file : UploadFile) (app app' : App) (df : DataFrame)
    (res : UploadResult) :
  load_frame file = Ok df ->
  POST_upload file app = (Ok res, app') ->
  new_keys (rows_of df) <> [] ->
  exists x app'',
    POST_upload file app' = (Raise x, app'') /\
    status_of_exn x = 500%Z /\
    store app'' = store app'.
Proof.
  intros L P K.
  destruct (upload_outcome file app)
    as [[x [L' _]]|[[df1 [x [a [_ [P' _]]]]]|[df1 [rs H]]]];
    try congruence.
  destruct H as [L1 [P1 [_ [_ [_ [K1 _]]]]]].
  assert (df1 = df) by congruence. subst df1.
  rewrite P in P1. inversion P1 as [[Hres Happ]].
  destruct (upload_outcome file
              {| store := store app ++ rs;
                 draws := (draws app + len df)%nat |})
    as [[x [L' _]]|[[df2 [x [a [_ [P2 [T [S _]]]]]]]|[df2 [rs2 H]]]].
  - congruence.
  - exists x, a. repeat split; assumption.
  - exfalso. destruct H as [L2 [_ [_ [_ [_ [K2 [_ [_ F]]]]]]]].
    assert (df2 = df) by congruence. subst df2.
    simpl in F. rewrite K2, keys_app, K1 in F.
    apply (fresh_for_spec same_sqltext_eq) in F. destruct F as [_ F].
    destruct (new_keys (rows_of df)) as [|k ks]; [apply K; reflexivity|].
    apply (F k (or_introl eq_refl)).
    apply in_or_app. right. left. reflexivity.
Qed.

Lemma upload_is_not_repeatable_witness :
  load_frame Samples.roster = Ok (Samples.frame Samples.roster) /\
  POST_upload Samples.roster empty_app
    = (Ok {| status := "success"; rows_inserted := 1 |},
       Samples.after Samples.roster) /\
  new_keys (rows_of (Samples.frame Samples.roster)) <> [] /\
  exists x app'',
    POST_upload Samples.roster (Samples.after Samples.roster)
      = (Raise x, app'') /\
    status_of_exn x = 500%Z /\
    store app'' = store (Samples.after Samples.roster).
Proof.
  assert (L : load_frame Samples.roster = Ok (Samples.frame Samples.roster))
    by (vm_compute; reflexivity).
  assert (P : POST_upload Samples.roster empty_app
              = (Ok {| status := "success"; rows_inserted := 1 |},
                 Samples.after Samples.roster))
    by (vm_compute; reflexivity).
  assert (K : new_keys (rows_of (Samples.frame Samples.roster)) <> [])
    by (vm_compute; discriminate).
  exact (conj L (conj P (conj K (upload_is_not_repeatable _ _ L P K)))).
Defined.

(** X12: a file with a heading and no data row, whose labels the [str]
    accessor accepts (one of them at least is a string), is accepted: the
    request answers success with rows_inserted = 0 and the application is
    exactly as it was. *)
Theorem upload_of_no_rows {R : Runtime}
    (file : UploadFile) (app : App) (df : DataFrame) :
  load_frame file = Ok df ->
  is_ok (stripped df) = true ->
  len df = 0%nat ->
  POST_upload file app
    = (Ok {| status := "success"; rows_inserted := 0 |}, app).
Proof.
  intros L K Z.
  assert (E : rows_of df = []).
  { pose proof (rows_of_length df K) as N. rewrite Z in N.
    destruct (rows_of df); [reflexivity|discriminate]. }
  assert (S : stage_all (draws app) (rows_of df) = Ok [])
    by (rewrite E; reflexivity).
  rewrite (upload_commits file app L K S), Z. simpl.
  rewrite Nat.add_0_r. destruct app; reflexivity.
Qed.

Lemma upload_of_no_rows_witness :
  load_frame Samples.heading_only
    = Ok (Samples.frame Samples.heading_only) /\
  is_ok (stripped (Samples.frame Samples.heading_only)) = true /\
  len (Samples.frame Samples.heading_only) = 0%nat /\
  POST_upload Samples.heading_only (Samples.after Samples.roster)
    = (Ok {| status := "success"; rows_inserted := 0 |},
       Samples.after Samples.roster).
Proof.
  assert (L : load_frame Samples.heading_only
              = Ok (Samples.frame Samples.heading_only))
    by (vm_compute; reflexivity).
  assert (K : is_ok (stripped (Samples.frame Samples.heading_only)) = true)
    by (vm_compute; reflexivity).
  assert (Z : len (Samples.frame Samples.heading_only) = 0%nat)
    by (vm_compute; reflexivity).
  exact (conj L (conj K (conj Z
           (upload_of_no_rows _ (Samples.after Samples.roster) L K Z)))).
Defined.

(** X13: an upload is answered with 200, 400 or 500 and nothing else, and
    with 400 exactly when the file is refused before a table is read: a
    row [float] rejects or a business identifier that collides is a 500,
    never a client error. *)
Theorem upload_status {R : Runtime} (file : UploadFile) (app : App) :
  (status_of (fst (POST_upload file app)) = 200%Z
   \/ status_of (fst (POST_upload file app)) = 400%Z
   \/ status_of (fst (POST_upload file app)) = 500%Z) /\
  (status_of (fst (POST_upload file app)) = 400%Z
   <-> is_ok (load_frame file) = false).
Proof.
  destruct (upload_outcome file app)
    as [[x [L P]]|[[df [x [a [L [P [_ [S _]]]]]]]|[df [rs [L [P _]]]]]];
    rewrite P, L; simpl.
  - destruct (load_frame_raises _ L) as [d D]. subst x. simpl.
    split; [auto|]. split; reflexivity.
  - rewrite S. split; [auto|]. split; discriminate.
  - split; [auto|]. split; discriminate.
Qed.

(** X14: rows without a business identifier never collide: when the
    labels of the table are accepted and none of them is EmployeeID, the
    upload succeeds as soon as [float] accepts the incomes, the text
    values can be bound and the identifiers drawn are fresh, whatever the
    store already holds, and every record written has a NULL
    employee_id. *)
Theorem upload_without_employee_id {R : Runtime}
    (file : UploadFile) (app : App) (df : DataFrame) :
  load_frame file = Ok df ->
  is_ok (stripped df) = true ->
  ~ In (PyStr "EmployeeID") (labels_of df) ->
  forallb convertible (rows_of df) = true ->
  forallb bindable (rows_of df) = true ->
  fresh_for (ids (store app)) (new_ids (draws app) (len df)) = true ->
  exists rs,
    POST_upload file app
      = (Ok {| status := "success"; rows_inserted := len df |},
         {| store := store app ++ rs;
            draws := (draws app + len df)%nat |}) /\
    List.length rs = len df /\
    Forall (fun r => employee_id r = None) rs.
Proof.
  intros L S N C B F.
  pose proof (missing_key_column df N) as K.
  destruct (upload_outcome file app)
    as [[x [L' _]]|[[df' [x [a [L' [_ [_ [_ H]]]]]]]|[df' [rs H]]]].
  - congruence.
  - exfalso. assert (df' = df) by congruence. subst df'.
    unfold acceptable in H. rewrite S, C, B, F, K in H. discriminate.
  - destruct H as [L' [P [Hn [W _]]]].
    assert (df' = df) by congruence. subst df'.
    exists rs. split; [exact P|]. split; [exact Hn|].
    assert (G : forall p, In p (combine (seq (draws app) (len df))
                                        (rows_of df)) ->
                          get (snd p) "EmployeeID" PyNone = PyNone).
    { intros [n row] I. apply in_combine_r in I. simpl.
      apply get_absent. rewrite (rows_of_index df row I). exact N. }
    clear - W G. induction W as [|p r ps rs' Wr _ IH]; constructor.
    + destruct Wr as [_ [E _]].
      rewrite (G p (or_introl eq_refl)) in E. simpl in E. congruence.
    + apply IH. intros q I. apply G. right. exact I.
Qed.

Lemma upload_without_employee_id_witness :
  load_frame Samples.anonymous = Ok (Samples.frame Samples.anonymous) /\
  is_ok (stripped (Samples.frame Samples.anonymous)) = true /\
  ~ In (PyStr "EmployeeID") (labels_of (Samples.frame Samples.anonymous)) /\
  forallb convertible (rows_of (Samples.frame Samples.anonymous)) = true /\
  forallb bindable (rows_of (Samples.frame Samples.anonymous)) = true /\
  fresh_for (ids (store (Samples.after Samples.anonymous)))
    (new_ids (draws (Samples.after Samples.anonymous))
             (len (Samples.frame Samples.anonymous))) = true /\
  exists rs,
    POST_upload Samples.anonymous (Samples.after Samples.anonymous)
      = (Ok {| status := "success";
               rows_inserted := len (Samples.frame Samples.anonymous) |},
         {| store := store (Samples.after Samples.anonymous) ++ rs;
            draws := (draws (Samples.after Samples.anonymous)
                      + len (Samples.frame Samples.anonymous))%nat |}) /\
    List.length rs = len (Samples.frame Samples.anonymous) /\
    Forall (fun r => employee_id r = None) rs.
Proof.
  assert (L : load_frame Samples.anonymous
              = Ok (Samples.frame Samples.anonymous))
    by (vm_compute; reflexivity).
  assert (S : is_ok (stripped (Samples.frame Samples.anonymous)) = true)
    by (vm_compute; reflexivity).
  assert (N : ~ In (PyStr "EmployeeID")
                   (labels_of (Samples.frame Samples.anonymous))).
  { vm_compute. intros [H|[H|[H|[]]]]; discriminate. }
  assert (C : forallb convertible
                (rows_of (Samples.frame Samples.anonymous)) = true)
    by (vm_compute; reflexivity).
  assert (B : forallb bindable
                (rows_of (Samples.frame Samples.anonymous)) = true)
    by (vm_compute; reflexivity).
  assert (F : fresh_for (ids (store (Samples.after Samples.anonymous)))
                (new_ids (draws (Samples.after Samples.anonymous))
                         (len (Samples.frame Samples.anonymous)))
              = true)
    by (vm_compute; reflexivity).
  exact (conj L (conj S (conj N (conj C (conj B (conj F
           (upload_without_employee_id Samples.anonymous
              (Samples.after Samples.anonymous) L S N C B F))))))).
Defined.

(** X15: an upload can succeed and break the listing: when it stores a
    row one of whose EmployeeID, Name and Department is bound to NULL or
    whose MonthlyIncome is NaN, GET /api/employees raises the validation
    error from then on. *)
Theorem incomplete_row_breaks_listing {R : Runtime}
    (file : UploadFile) (app app' : App) (df : DataFrame)
    (res : UploadResult) :
  load_frame file = Ok df ->
  POST_upload file app = (Ok res, app') ->
  existsb incomplete_row (rows_of df) = true ->
  GET_employees app' = (Raise ValidationError, app') /\
  status_of (fst (GET_employees app')) = 500%Z.
Proof.
  intros L P I.
  destruct (upload_outcome file app)
    as [[x [L' _]]|[[df' [x [a [_ [P' _]]]]]|[df' [rs H]]]];
    try congruence.
  destruct H as [L' [P' [_ [W [_ [_ [A _]]]]]]].
  assert (df' = df) by congruence. subst df'.
  rewrite P in P'. inversion P'. subst app'.
  assert (K : is_ok (stripped df) = true).
  { unfold acceptable in A.
    destruct (is_ok (stripped df)); [reflexivity|discriminate]. }
  pose proof (written_all_complete W) as C.
  rewrite <- (rows_of_length df K), snd_combine_seq, I in C. simpl in C.
  rewrite GET_employees_value, listing_incomplete.
  - split; reflexivity.
  - simpl. rewrite forallb_app, C. apply andb_false_r.
Qed.

Lemma incomplete_row_breaks_listing_witness :
  load_frame Samples.unpaid = Ok (Samples.frame Samples.unpaid) /\
  POST_upload Samples.unpaid (Samples.after Samples.roster)
    = (Ok {| status := "success"; rows_inserted := 1 |},
       Samples.after_both Samples.roster Samples.unpaid)
  /\
  existsb incomplete_row (rows_of (Samples.frame Samples.unpaid))
    = true /\
  GET_employees (Samples.after_both Samples.roster Samples.unpaid)
    = (Raise ValidationError,
       Samples.after_both Samples.roster Samples.unpaid)
  /\
  status_of
    (fst (GET_employees (Samples.after_both Samples.roster Samples.unpaid)))
    = 500%Z.
Proof.
  assert (L : load_frame Samples.unpaid
              = Ok (Samples.frame Samples.unpaid))
    by (vm_compute; reflexivity).
  assert (P : POST_upload Samples.unpaid (Samples.after Samples.roster)
              = (Ok {| status := "success"; rows_inserted := 1 |},
                 Samples.after_both Samples.roster Samples.unpaid))
    by (vm_compute; reflexivity).
  assert (I : existsb incomplete_row
                (rows_of (Samples.frame Samples.unpaid)) = true)
    by (vm_compute; reflexivity).
  exact (conj L (conj P (conj I
           (incomplete_row_breaks_listing _ _ L P I)))).
Defined.

(** X16: when the listing works, an upload that succeeds and all of whose
    rows pydantic can read (a string, or bytes it reads as one, for each
    of EmployeeID, Name and Department, and an income that is not NaN)
    keeps it working: the listing then answers the entries it answered
    before, followed by one entry per row of the upload, in order. *)
Theorem listing_after_upload {R : Runtime}
    (file : UploadFile) (app app' : App) (df : DataFrame)
    (res : UploadResult) (old : list EmployeeResponse.t) :
  load_frame file = Ok df ->
  POST_upload file app = (Ok res, app') ->
  forallb readable_row (rows_of df) = true ->
  fst (GET_employees app) = Ok old ->
  exists rs new,
    store app' = store app ++ rs /\
    GET_employees app' = (Ok (old ++ new), app') /\
    List.length new = rows_inserted res /\
    Forall2 exposes rs new.
Proof.
  intros L P I O.
  destruct (upload_outcome file app)
    as [[x [L' _]]|[[df' [x [a [_ [P' _]]]]]|[df' [rs H]]]];
    try congruence.
  destruct H as [L' [P' [N [W [_ [_ [A _]]]]]]].
  assert (df' = df) by congruence. subst df'.
  rewrite P in P'. inversion P'. subst app'.
  assert (K : is_ok (stripped df) = true).
  { unfold acceptable in A.
    destruct (is_ok (stripped df)); [reflexivity|discriminate]. }
  pose proof (written_all_listable W) as C.
  rewrite <- (rows_of_length df K), snd_combine_seq, I in C.
  destruct (listing_listable _ C) as [new [E X]].
  rewrite GET_employees_value in O. simpl in O.
  exists rs, new. split; [reflexivity|].
  rewrite GET_employees_value. cbn [store rows_inserted].
  rewrite (comprehension_app _ _ _ O E). split; [reflexivity|].
  split; [|exact X].
  rewrite (comprehension_length _ _ E). exact N.
Qed.

Lemma listing_after_upload_witness :
  load_frame Samples.second_roster
    = Ok (Samples.frame Samples.second_roster) /\
  POST_upload Samples.second_roster (Samples.after Samples.roster)
    = (Ok {| status := "success"; rows_inserted := 2 |},
       Samples.after_both Samples.roster Samples.second_roster) /\
  forallb readable_row (rows_of (Samples.frame Samples.second_roster))
    = true /\
  fst (GET_employees (Samples.after Samples.roster))
    = Ok [{| EmployeeResponse.id := uuid4 0;
             EmployeeResponse.employee_id := "E1";
             EmployeeResponse.name := "Alice";
             EmployeeResponse.department := "Eng";
             EmployeeResponse.monthly_income := FFin (5000 # 1) |}] /\
  exists rs new,
    store (Samples.after_both Samples.roster Samples.second_roster)
      = store (Samples.after Samples.roster) ++ rs /\
    GET_employees (Samples.after_both Samples.roster Samples.second_roster)
      = (Ok ([{| EmployeeResponse.id := uuid4 0;
                 EmployeeResponse.employee_id := "E1";
                 EmployeeResponse.name := "Alice";
                 EmployeeResponse.department := "Eng";
                 EmployeeResponse.monthly_income := FFin (5000 # 1) |}]
             ++ new),
         Samples.after_both Samples.roster Samples.second_roster) /\
    List.length new
      = rows_inserted {| status := "success"; rows_inserted := 2 |} /\
    Forall2 exposes rs new.
Proof.
  assert (L : load_frame Samples.second_roster
              = Ok (Samples.frame Samples.second_roster))
    by (vm_compute; reflexivity).
  assert (P : POST_upload Samples.second_roster (Samples.after Samples.roster)
              = (Ok {| status := "success"; rows_inserted := 2 |},
                 Samples.after_both Samples.roster Samples.second_roster))
    by (vm_compute; reflexivity).
  assert (I : forallb readable_row
                (rows_of (Samples.frame Samples.second_roster)) = true)
    by (vm_compute; reflexivity).
  assert (O : fst (GET_employees (Samples.after Samples.roster))
              = Ok [{| EmployeeResponse.id := uuid4 0;
                       EmployeeResponse.employee_id := "E1";
                       EmployeeResponse.name := "Alice";
                       EmployeeResponse.department := "Eng";
                       EmployeeResponse.monthly_income
                         := FFin (5000 # 1) |}])
    by (vm_compute; reflexivity).
  exact (conj L (conj P (conj I (conj O
           (listing_after_upload _ _ L P I O))))).
Defined.

(** A table of whole numbers in the four columns: every row is complete
    and the upload succeeds, and the listing fails all the same, since
    the eight bytes stored for the identifier 200 are no UTF-8 text. *)
Example listing_of_blobs :
  fst (POST_upload Samples.all_numbers empty_app)
    = Ok {| status := "success"; rows_inserted := 1 |} /\
  existsb incomplete_row (rows_of (Samples.frame Samples.all_numbers))
    = false /\
  forallb readable_row (rows_of (Samples.frame Samples.all_numbers))
    = false /\
  fst (GET_employees (Samples.after Samples.all_numbers))
    = Raise ValidationError.
Proof.
  repeat split; vm_compute; reflexivity.
Qed.

(** X20: a table that has columns and none of whose labels is a string,
    as a workbook with numbers in its first row gives, is refused after
    the [try]: stripping the labels raises, the request is answered with
    status 500 and not with a client error, and the application is
    exactly as it was. *)
Theorem upload_of_labels_without_text {R : Runtime}
    (file : UploadFile) (app : App) (df : DataFrame) :
  load_frame file = Ok df ->
  columns df <> [] ->
  existsb is_text (columns df) = false ->
  POST_upload file app = (Raise AttributeError, app) /\
  status_of (fst (POST_upload file app)) = 500%Z.
Proof.
  intros L N T.
  assert (K : is_ok (stripped df) = false).
  { unfold stripped, str_strip_index.
    destruct (columns df) as [|l ls]; [congruence|].
    rewrite T. reflexivity. }
  rewrite (upload_labels_refused file app L K). split; reflexivity.
Qed.

Lemma upload_of_labels_without_text_witness :
  @load_frame workbook_runtime Samples.workbook
    = Ok Samples.numeric_labels /\
  columns Samples.numeric_labels <> [] /\
  existsb is_text (columns Samples.numeric_labels) = false /\
  @POST_upload workbook_runtime Samples.workbook empty_app
    = (Raise AttributeError, empty_app) /\
  status_of (fst (@POST_upload workbook_runtime Samples.workbook empty_app))
    = 500%Z.
Proof.
  assert (L : @load_frame workbook_runtime Samples.workbook
              = Ok Samples.numeric_labels)
    by (vm_compute; reflexivity).
  assert (N : columns Samples.numeric_labels <> []) by discriminate.
  assert (T : existsb is_text (columns Samples.numeric_labels) = false)
    by reflexivity.
  exact (conj L (conj N (conj T
           (@upload_of_labels_without_text workbook_runtime
              Samples.workbook empty_app Samples.numeric_labels L N T)))).
Defined.

(* ================================================================= *)
(** ** The name of the file and the columns of the table              *)
(* ================================================================= *)

Lemma string_length_append (p s : string) :
  String.length (p ++ s) = (String.length p + String.length s)%nat.
Proof.
  induction p as [|c p IH]; simpl; [reflexivity|].
  rewrite IH. reflexivity.
Qed.

Lemma substring_skip (p t : string) (k m : nat) :
  substring (String.length p + k) m (p ++ t) = substring k m t.
Proof.
  induction p as [|c p IH]; simpl; [reflexivity|exact IH].
Qed.

Lemma substring_all (s : string) : substring 0 (String.length s) s = s.
Proof.
  induction s as [|c s IH]; simpl; [reflexivity|].
  rewrite IH. reflexivity.
Qed.

(** A name that is written with the suffix ends with it. *)
Lemma endswith_append (p suffix : string) :
  endswith (p ++ suffix) suffix = true.
Proof.
  unfold endswith. rewrite string_length_append.
  replace (String.length p + String.length suffix - String.length suffix)%nat
    with (String.length p + 0)%nat by lia.
  rewrite substring_skip, substring_all, String.eqb_refl, andb_true_r.
  apply Nat.leb_le. lia.
Qed.

Lemma xlsx_is_not_csv (p : string) : endswith (p ++ ".xlsx") ".csv" = false.
Proof.
  unfold endswith. rewrite string_length_append. simpl String.length.
  replace (String.length p + 5 - 4)%nat with (String.length p + 1)%nat
    by lia.
  rewrite substring_skip. simpl. apply andb_false_r.
Qed.

Lemma filter_permutation {A} (f : A -> bool) (l l' : list A) :
  Permutation l l' -> Permutation (filter f l) (filter f l').
Proof.
  induction 1 as [|x l l' _ IH|x y l|l l' l'' _ IH1 _ IH2]; simpl.
  - constructor.
  - destruct (f x); [constructor|]; exact IH.
  - destruct (f x), (f y); try apply Permutation_refl. constructor.
  - exact (Permutation_trans IH1 IH2).
Qed.

(** [row.get] looks at the labels, not at their positions. *)
Lemma get_permutation (row row' : Series) (key : string) (default : pyval) :
  Permutation (combine (index row) (values row))
              (combine (index row') (values row')) ->
  get row key default = get row' key default.
Proof.
  intros P. unfold get.
  assert (H : Permutation (hits row key) (hits row' key)).
  { unfold hits. apply Permutation_map. apply filter_permutation. exact P. }
  destruct (hits row key) as [|a [|b h]].
  - apply Permutation_nil in H. rewrite H. reflexivity.
  - apply Permutation_length_1_inv in H. rewrite H. reflexivity.
  - apply Permutation_length in H.
    destruct (hits row' key) as [|a' [|b' h']]; try discriminate.
    reflexivity.
Qed.

(** X17: the format is chosen by the end of the file name alone: a file
    named p.csv, whatever p is, is decoded as UTF-8 and read as
    comma-separated text, and a file named p.xlsx is read as a workbook
    without being decoded. *)
Theorem format_follows_suffix {R : Runtime} (p : string) (bs : list byte) :
  read_frame {| filename := p ++ ".csv"; contents := bs |}
    = (text <~ decode_utf8 bs ;; read_csv text) /\
  read_frame {| filename := p ++ ".xlsx"; contents := bs |}
    = read_excel bs.
Proof.
  unfold read_frame. simpl.
  rewrite endswith_append, xlsx_is_not_csv, endswith_append.
  split; reflexivity.
Qed.

(** X18: the order of the columns does not matter: two rows that pair the
    same labels with the same cells, in different orders, have the same
    effect on the session. *)
Theorem column_order_is_irrelevant {R : Runtime}
    (row row' : Series) (s : Session) :
  Permutation (combine (index row) (values row))
              (combine (index row') (values row')) ->
  ingest_row row s = ingest_row row' s.
Proof.
  intros P. unfold ingest_row.
  rewrite (get_permutation row row' "MonthlyIncome" (PyInt 0) P),
    (get_permutation row row' "EmployeeID" PyNone P),
    (get_permutation row row' "Name" PyNone P),
    (get_permutation row row' "Department" PyNone P).
  reflexivity.
Qed.

Lemma column_order_is_irrelevant_witness :
  Permutation
    (combine (index {| index := [PyStr "Name"; PyStr "MonthlyIncome"];
                       values := [PyStr "Alice"; PyInt 5000] |})
             (values {| index := [PyStr "Name"; PyStr "MonthlyIncome"];
                        values := [PyStr "Alice"; PyInt 5000] |}))
    (combine (index {| index := [PyStr "MonthlyIncome"; PyStr "Name"];
                       values := [PyInt 5000; PyStr "Alice"] |})
             (values {| index := [PyStr "MonthlyIncome"; PyStr "Name"];
                        values := [PyInt 5000; PyStr "Alice"] |})) /\
  ingest_row {| index := [PyStr "Name"; PyStr "MonthlyIncome"];
                values := [PyStr "Alice"; PyInt 5000] |}
             {| table := []; pending := []; entropy := 0 |}
  = ingest_row {| index := [PyStr "MonthlyIncome"; PyStr "Name"];
                  values := [PyInt 5000; PyStr "Alice"] |}
               {| table := []; pending := []; entropy := 0 |}.
Proof.
  assert (P : Permutation
                (combine
                   (index {| index := [PyStr "Name"; PyStr "MonthlyIncome"];
                             values := [PyStr "Alice"; PyInt 5000] |})
                   (values {| index := [PyStr "Name"; PyStr "MonthlyIncome"];
                              values := [PyStr "Alice"; PyInt 5000] |}))
                (combine
                   (index {| index := [PyStr "MonthlyIncome"; PyStr "Name"];
                             values := [PyInt 5000; PyStr "Alice"] |})
                   (values {| index := [PyStr "MonthlyIncome"; PyStr "Name"];
                              values := [PyInt 5000; PyStr "Alice"] |})))
    by apply perm_swap.
  exact (conj P (column_order_is_irrelevant _ _
                   {| table := []; pending := []; entropy := 0 |} P)).
Defined.
